(** * PC Builder Expert Assistant: a shallow embedding of [app.py]

    The development follows the layout of the Python module:

    - Python values the module manipulates (strings, insertion-ordered
      dictionaries, exceptions, binary64 floats);
    - a small state-and-exception monad in which the calls to the outside
      world (the language model, the shopping search, [print]) are recorded
      in a trace;
    - the build catalog [PC_BUILDS];
    - the functions [analyze_user_needs], [search_amazon_for_component],
      [select_build_tier], [format_results_as_markdown] and
      [get_assistant_response];
    - the properties of the dialogue, of the build selection and of the
      report.

    Python [str] values are modelled by [string]: sequences of code points
    below 256.  In that range the class [\d] of [re] is exactly ['0'..'9'].
    Python [int] is [Z]. *)

From Stdlib Require Import ZArith NArith List String Ascii Bool Lia.
From Stdlib Require Import DecimalString.
From Stdlib Require Import SpecFloat.
Import ListNotations.

Local Open Scope string_scope.
Local Open Scope Z_scope.

(* ===================================================================== *)
(** * Python values *)
(* ===================================================================== *)

(** The line feed of the Python literals ["\n"]. *)
Definition LF : string := String (ascii_of_nat 10) EmptyString.

(** [str(n)] for an [int]. *)
Definition str_of_int (n : Z) : string :=
  NilZero.string_of_int (Z.to_int n).

(** [sep.join(items)]. *)
Fixpoint join (sep : string) (items : list string) : string :=
  match items with
  | [] => ""
  | [x] => x
  | x :: rest => x ++ sep ++ join sep rest
  end.

(** [needle in haystack] on strings. *)
Fixpoint contains (needle haystack : string) : bool :=
  String.prefix needle haystack
  || match haystack with
     | EmptyString => false
     | String _ rest => contains needle rest
     end.

(** ** Exceptions *)

Inductive exn : Type :=
| KeyError (what : string)
| ValueError (what : string)
| ExternalError (what : string).

(** The text of an exception, as interpolated by the handler of
    [analyze_user_needs].  It is abridged: Python prints a [KeyError] as
    the quoted form of its message. *)
Definition exn_text (e : exn) : string :=
  match e with
  | KeyError w => w
  | ValueError w => w
  | ExternalError w => w
  end.

Inductive outcome (A : Type) : Type :=
| Ok (a : A)
| Raise (e : exn).
Arguments Ok {A} a.
Arguments Raise {A} e.

Definition is_ok {A} (o : outcome A) : bool :=
  match o with Ok _ => true | Raise _ => false end.

(** ** Dictionaries

    Python dictionaries keep insertion order; [items()] iterates in that
    order.  They are association lists without duplicate keys. *)

Definition dict (V : Type) : Type := list (string * V).

Fixpoint dict_find {V} (d : dict V) (k : string) : option V :=
  match d with
  | [] => None
  | (k', v) :: rest => if String.eqb k k' then Some v else dict_find rest k
  end.

(** [d[k]]. *)
Definition dict_getitem {V} (d : dict V) (k : string) : outcome V :=
  match dict_find d k with
  | Some v => Ok v
  | None => Raise (KeyError k)
  end.

(** [d.get(k, default)]. *)
Definition dict_get {V} (d : dict V) (k : string) (default : V) : V :=
  match dict_find d k with
  | Some v => v
  | None => default
  end.

(** [d[k] = v]: replaces in place, or appends a new key at the end. *)
Fixpoint dict_setitem {V} (d : dict V) (k : string) (v : V) : dict V :=
  match d with
  | [] => [(k, v)]
  | (k', v') :: rest =>
      if String.eqb k k' then (k, v) :: rest
      else (k', v') :: dict_setitem rest k v
  end.

Definition dict_keys {V} (d : dict V) : list string := map fst d.

(* ===================================================================== *)
(** * The build catalog *)
(* ===================================================================== *)

(** An entry of [PC_BUILDS]: the value under ["name"] and the dictionary
    under ["parts"]. *)
Record build : Type := {
  build_name : string;
  build_parts : dict string
}.

Definition budget_office : build := {|
  build_name := "Budget Office/Web Browse Build";
  build_parts := [
    ("CPU", "AMD Ryzen 5 5600G");
    ("Motherboard", "ASRock B450M PRO4");
    ("RAM", "Corsair Vengeance LPX 16GB DDR4 3200MHz");
    ("Storage", "Crucial P3 1TB NVMe SSD");
    ("PSU", "Thermaltake Smart 500W 80+ White");
    ("Case", "Cooler Master MasterBox Q300L") ]
|}.

Definition mid_range_gaming : build := {|
  build_name := "Mid-Range Gaming Build";
  build_parts := [
    ("CPU", "AMD Ryzen 5 7600X");
    ("GPU", "NVIDIA GeForce RTX 4060");
    ("Motherboard", "Gigabyte B650 Gaming X AX");
    ("RAM", "G.Skill Flare X5 32GB DDR5 6000MHz");
    ("Storage", "Samsung 980 Pro 1TB NVMe SSD");
    ("CPU Cooler", "Thermalright Phantom Spirit 120 SE");
    ("PSU", "Corsair RM750e 750W 80+ Gold");
    ("Case", "Lian Li Lancool 216") ]
|}.

Definition high_end_gaming : build := {|
  build_name := "High-End Gaming/Streaming Build";
  build_parts := [
    ("CPU", "AMD Ryzen 7 7800X3D");
    ("GPU", "NVIDIA GeForce RTX 4070 Super");
    ("Motherboard", "MSI MAG B650 Tomahawk WiFi");
    ("RAM", "G.Skill Trident Z5 Neo 32GB DDR5 6000MHz CL30");
    ("Storage", "Western Digital Black SN850X 2TB NVMe SSD");
    ("CPU Cooler", "Thermalright Phantom Spirit 120 SE");
    ("PSU", "SeaSonic FOCUS Plus Gold 850W");
    ("Case", "Fractal Design Pop Air") ]
|}.

Definition professional_workstation : build := {|
  build_name := "Professional Video Editing Workstation";
  build_parts := [
    ("CPU", "Intel Core i7-14700K");
    ("GPU", "NVIDIA GeForce RTX 4080 Super");
    ("Motherboard", "MSI PRO Z790-A WIFI");
    ("RAM", "Corsair Vengeance 64GB DDR5 5600MHz");
    ("Storage", "Samsung 990 Pro 2TB NVMe SSD");
    ("CPU Cooler", "ARCTIC Liquid Freezer II 360");
    ("PSU", "Corsair RM1000e 1000W 80+ Gold");
    ("Case", "be quiet! Pure Base 500DX") ]
|}.

Definition PC_BUILDS : dict build := [
  ("budget_office", budget_office);
  ("mid_range_gaming", mid_range_gaming);
  ("high_end_gaming", high_end_gaming);
  ("professional_workstation", professional_workstation) ].

(* ===================================================================== *)
(** * Build selection *)
(* ===================================================================== *)

Definition select_build_tier (budget : Z) (use_case : string) : outcome build :=
  if contains "gaming" use_case then
    if budget <? 1600 then dict_getitem PC_BUILDS "mid_range_gaming"
    else dict_getitem PC_BUILDS "high_end_gaming"
  else if contains "editing" use_case then
    dict_getitem PC_BUILDS "professional_workstation"
  else if contains "office" use_case then
    dict_getitem PC_BUILDS "budget_office"
  else if budget <=? 700 then dict_getitem PC_BUILDS "budget_office"
  else if budget <=? 1600 then dict_getitem PC_BUILDS "mid_range_gaming"
  else dict_getitem PC_BUILDS "high_end_gaming".

(* ===================================================================== *)
(** * Floats *)
(* ===================================================================== *)

(** Python [float] is IEEE 754 binary64, rounding to nearest, ties to even. *)
Definition prec : Z := 53.
Definition emax : Z := 1024.

Definition float_add : spec_float -> spec_float -> spec_float := SFadd prec emax.

Definition is_digit (c : ascii) : bool :=
  (48 <=? N_of_ascii c)%N && (N_of_ascii c <=? 57)%N.

Definition is_dot (c : ascii) : bool := Ascii.eqb c ".".

Definition digit_value (c : ascii) : N := (N_of_ascii c - 48)%N.

(** Reading of a string made of digits and dots as a decimal numeral:
    [m] is the number written by the digits read so far, [scale] is ten to
    the number of digits read after the dot.  A second dot, a character
    that is neither, or a numeral without any digit is no numeral. *)
Fixpoint scan_decimal (s : string) (m : N) (dot any : bool) (scale : N)
  : option (N * N) :=
  match s with
  | EmptyString => if any then Some (m, scale) else None
  | String c rest =>
      if is_digit c then
        scan_decimal rest (10 * m + digit_value c)%N dot true
                     (if dot then (10 * scale)%N else scale)
      else if is_dot c then
        if dot then None else scan_decimal rest m true any scale
      else None
  end.

(** The binary64 number nearest to [m / scale]. *)
Definition float_of_ratio (m scale : N) : spec_float :=
  match m, scale with
  | N0, _ => S754_zero false
  | Npos pm, Npos ps =>
      SFdiv prec emax (S754_finite false pm 0) (S754_finite false ps 0)
  | Npos _, N0 => S754_nan
  end.

(** [float(s)], for the strings [re.sub(r'[^\d.]', '', ...)] returns:
    made of digits and dots only. *)
Definition py_float (s : string) : outcome spec_float :=
  match scan_decimal s 0 false false 1 with
  | Some (m, scale) => Ok (float_of_ratio m scale)
  | None => Raise (ValueError ("could not convert string to float: '" ++ s ++ "'"))
  end.

(** [num / den] rounded to the nearest integer, ties to even. *)
Definition div_half_even (num den : Z) : Z :=
  let q := num / den in
  let r := num mod den in
  match 2 * r ?= den with
  | Lt => q
  | Gt => q + 1
  | Eq => if Z.even q then q else q + 1
  end.

(** The value [m * 2^e] in hundredths, rounded. *)
Definition hundredths (m : positive) (e : Z) : Z :=
  match e with
  | Zneg p => div_half_even (Zpos m * 100) (2 ^ Zpos p)
  | _ => Zpos m * 2 ^ e * 100
  end.

Definition digit_char (d : Z) : ascii := ascii_of_N (48 + Z.to_N d).

Definition two_digits (n : Z) : string :=
  String (digit_char (n / 10)) (String (digit_char (n mod 10)) EmptyString).

Definition fixed2 (h : Z) : string :=
  str_of_int (h / 100) ++ "." ++ two_digits (h mod 100).

Definition sign_text (s : bool) : string := if s then "-" else "".

(** [f"{x:.2f}"] for a float [x]. *)
Definition format_2f (x : spec_float) : string :=
  match x with
  | S754_zero s => sign_text s ++ "0.00"
  | S754_infinity s => sign_text s ++ "inf"
  | S754_nan => "nan"
  | S754_finite s m e => sign_text s ++ fixed2 (hundredths m e)
  end.

(* ===================================================================== *)
(** * Effects: the outside world and the trace of calls *)
(* ===================================================================== *)

(** The dictionary passed to [GoogleSearch]. *)
Record search_params : Type := {
  engine : string;
  q : string;
  tbm : string;
  num : Z;
  api_key : string
}.

(** What the module does to the outside world, in the order it does it. *)
Inductive event : Type :=
| Printed (line : string)
| LLMCall (prompt : string)
| SearchCall (params : search_params).

Definition trace : Type := list event.

(** The structured output declared by [class NeedsAnalysis(BaseModel)];
    what the parser returns is taken at this declared type. *)
Record NeedsAnalysis : Type := {
  budget : Z;
  use_case : string;
  has_confirmed : bool
}.

(** One shopping result of the search service, and the dictionary
    [search.get_dict()] returns (its list-valued entries). *)
Definition product : Type := dict string.
Definition search_results : Type := dict (list product).

(** The external collaborators.  Their answers may depend on everything
    that happened before the call, and each may raise. *)
Record world : Type := {
  LLM : trace -> string -> outcome string;
  json_parser : string -> outcome NeedsAnalysis;
  get_format_instructions : string;
  GoogleSearch : trace -> search_params -> outcome search_results;
  SERPAPI_API_KEY : string
}.

(** Computations: they read and extend the trace, and return or raise. *)
Definition M (A : Type) : Type := trace -> outcome A * trace.

Definition ret {A} (a : A) : M A := fun t => (Ok a, t).

Definition bind {A B} (m : M A) (k : A -> M B) : M B :=
  fun t =>
    match m t with
    | (Ok a, t') => k a t'
    | (Raise e, t') => (Raise e, t')
    end.

Definition lift {A} (o : outcome A) : M A := fun t => (o, t).

(** [try: m  except Exception as e: h e]. *)
Definition try_except {A} (m : M A) (h : exn -> M A) : M A :=
  fun t =>
    match m t with
    | (Ok a, t') => (Ok a, t')
    | (Raise e, t') => h e t'
    end.

Definition print (line : string) : M unit :=
  fun t => (Ok tt, (t ++ [Printed line])%list).

Definition obind {A B} (o : outcome A) (k : A -> outcome B) : outcome B :=
  match o with
  | Ok a => k a
  | Raise e => Raise e
  end.

Declare Scope py_scope.
Delimit Scope py_scope with py.
Notation "x <- m ;; k" := (bind m (fun x => k))
  (at level 100, m at next level, right associativity) : py_scope.
Notation "m ;; k" := (bind m (fun _ => k))
  (at level 100, right associativity) : py_scope.
Notation "x <~ o ;; k" := (obind o (fun x => k))
  (at level 100, o at next level, right associativity) : py_scope.
Local Open Scope py_scope.

(* ===================================================================== *)
(** * Prompting and parsing *)
(* ===================================================================== *)

Record PromptTemplate : Type := {
  template : string;
  input_variables : list string
}.

Definition llama_template : PromptTemplate := {|
  template :=
    "System: {system_prompt}" ++ LF ++ "{format_prompt}" ++ LF ++
    "Human: Here is the chat history:" ++ LF ++ "{chat_history}" ++ LF ++ "AI:";
  input_variables := ["system_prompt"; "format_prompt"; "chat_history"]
|}.

(** [tpl.format_map(d)] for a template whose fields are plain [{name}]
    (no doubled brace, no conversion).  [field] is the name being read
    when the scan is inside braces. *)
Fixpoint str_format (tpl : string) (field : option string) (d : dict string)
  : outcome string :=
  match tpl with
  | EmptyString =>
      match field with
      | None => Ok ""
      | Some _ => Raise (ValueError "expected '}' before end of string")
      end
  | String c rest =>
      match field with
      | None =>
          if Ascii.eqb c "{" then str_format rest (Some "") d
          else tail <~ str_format rest None d ;; Ok (String c tail)
      | Some name =>
          if Ascii.eqb c "}" then
            v <~ dict_getitem d name ;;
            tail <~ str_format rest None d ;;
            Ok (v ++ tail)
          else str_format rest (Some (name ++ String c "")) d
      end
  end.

Definition mem_string (x : string) (l : list string) : bool :=
  existsb (String.eqb x) l.

(** The declared variables the input dictionary does not provide. *)
Definition missing_variables (p : PromptTemplate) (input : dict string)
  : list string :=
  filter (fun v => negb (mem_string v (dict_keys input))) (input_variables p).

(** [PromptTemplate.invoke(input)]: every declared input variable has to
    be a key of [input] (extra keys are ignored), or [KeyError] is raised;
    then the template is filled in.  The text of the exception is
    abridged. *)
Definition prompt_invoke (p : PromptTemplate) (input : dict string)
  : outcome string :=
  match missing_variables p input with
  | [] => str_format (template p) None input
  | missing =>
      Raise (KeyError ("Input to PromptTemplate is missing variables {'"
                       ++ join "', '" missing ++ "'}"))
  end.

Definition system_prompt : string :=
  "You are an expert at analyzing chatbot conversations. Your task is to extract the user's budget and primary PC use case. "
  ++ "Categorize the use case into one of these specific keywords: 'gaming', 'office', 'editing', or 'unknown'. "
  ++ "Determine the budget as an integer. Also, determine if the user has just confirmed the plan by saying 'yes' or 'correct'.".

(** The record of the [except] branch of [analyze_user_needs]. *)
Definition sentinel_needs : NeedsAnalysis :=
  {| budget := 0; use_case := "unknown"; has_confirmed := false |}.

(* ===================================================================== *)
(** * The report *)
(* ===================================================================== *)

(** [re.sub(r'[^\d.]', '', s)]: drops every character that is neither a
    digit nor a dot. *)
Fixpoint strip_non_numeric (s : string) : string :=
  match s with
  | EmptyString => EmptyString
  | String c rest =>
      if is_digit c || is_dot c then String c (strip_non_numeric rest)
      else strip_non_numeric rest
  end.

Definition is_empty (s : string) : bool :=
  match s with EmptyString => true | String _ _ => false end.

(** One turn of the [for part in part_details] loop on the running total:
    lines 171 to 173. *)
Definition add_price (total_price : spec_float) (price : string)
  : outcome spec_float :=
  let price_str := strip_non_numeric price in
  if is_empty price_str then Ok total_price
  else x <~ py_float price_str ;; Ok (float_add total_price x).

(** The table row of lines 175 to 179. *)
Definition table_row (part : dict string) : outcome string :=
  type <~ dict_getitem part "type" ;;
  name <~ dict_getitem part "name" ;;
  link <~ dict_getitem part "link" ;;
  price <~ dict_getitem part "price" ;;
  name' <~ dict_getitem part "name" ;;
  image <~ dict_getitem part "image" ;;
  Ok ("| **" ++ type ++ "** | [" ++ name ++ "](" ++ link ++ ") "
      ++ "| " ++ price ++ " "
      ++ "| ![" ++ name' ++ "](" ++ image ++ ") |" ++ LF).

(** The loop of [format_results_as_markdown], on its two variables. *)
Fixpoint format_parts (part_details : list (dict string))
    (total_price : spec_float) (markdown_table : string)
  : outcome (spec_float * string) :=
  match part_details with
  | [] => Ok (total_price, markdown_table)
  | part :: rest =>
      price <~ dict_getitem part "price" ;;
      total_price' <~ add_price total_price price ;;
      row <~ table_row part ;;
      format_parts rest total_price' (markdown_table ++ row)
  end.

Definition report_title (b : build) : string :=
  "### Your Recommended " ++ build_name b ++ LF ++ LF.

Definition table_header : string :=
  "| Component | Part | Price | Image |" ++ LF ++ "|---|---|---|---|" ++ LF.

Definition total_line (total_price : spec_float) : string :=
  LF ++ "**Estimated Total: $" ++ format_2f total_price ++ "**".

Definition report_footer : string :=
  LF ++ LF ++ "*Prices are estimates from live search results and may vary. Links will open in a new tab.*".

(** [total_price = 0] starts the sum as an [int]; [0 + x] and [0.0 + x]
    are the same float and [f"{0:.2f}"] is [f"{0.0:.2f}"], so the sum
    starts here at the float zero. *)
Definition format_results_as_markdown (b : build) (part_details : list (dict string))
  : outcome string :=
  let total_price := S754_zero false in
  let markdown_table := report_title b in
  let markdown_table := markdown_table ++ "| Component | Part | Price | Image |" ++ LF in
  let markdown_table := markdown_table ++ "|---|---|---|---|" ++ LF in
  r <~ format_parts part_details total_price markdown_table ;;
  let '(total_price, markdown_table) := r in
  let markdown_table := markdown_table ++ total_line total_price in
  let markdown_table := markdown_table ++ report_footer in
  Ok markdown_table.

Section Assistant.

Variable w : world.

(** The prompt the chain starts with; the module uses [llama_template]. *)
Variable prompt : PromptTemplate.

Definition llm_call (text : string) : M string :=
  fun t => (LLM w t text, (t ++ [LLMCall text])%list).

Definition search_call (params : search_params) : M search_results :=
  fun t => (GoogleSearch w t params, (t ++ [SearchCall params])%list).

(** [(prompt | LLM | json_parser).invoke(input)]. *)
Definition chain_invoke (input : dict string) : M NeedsAnalysis :=
  text <- lift (prompt_invoke prompt input) ;;
  reply <- llm_call text ;;
  lift (json_parser w reply).

Definition analyze_user_needs (chat_history_str : string) : M NeedsAnalysis :=
  let format_prompt := get_format_instructions w in
  try_except
    (response <- chain_invoke [ ("system_prompt", system_prompt);
                                ("format_prompt", format_prompt);
                                ("user_prompt", chat_history_str) ] ;;
     ret response)
    (fun e =>
       print ("Error analyzing user needs: " ++ exn_text e) ;;
       ret sentinel_needs).

Definition search_amazon_for_component (part_name : string) : M (dict string) :=
  print ("Searching for: " ++ part_name) ;;
  let params := {| engine := "google";
                   q := "amazon.com " ++ part_name;
                   tbm := "shop";
                   num := 1;
                   api_key := SERPAPI_API_KEY w |} in
  results <- search_call params ;;
  let shopping_results := dict_get results "shopping_results" [] in
  match shopping_results with
  | product :: _ =>
      ret [ ("name", dict_get product "title" part_name);
            ("price", dict_get product "price" "N/A");
            ("link", dict_get product "link" "#");
            ("image", dict_get product "thumbnail" "") ]
  | [] =>
      ret [ ("name", part_name); ("price", "Not Found");
            ("link", "#"); ("image", "") ]
  end.

(** The loop of lines 215 to 218, on [final_parts_list]. *)
Fixpoint collect_parts (items : list (string * string))
    (final_parts_list : list (dict string)) : M (list (dict string)) :=
  match items with
  | [] => ret final_parts_list
  | (part_type, part_name) :: rest =>
      search_result <- search_amazon_for_component part_name ;;
      let search_result := dict_setitem search_result "type" part_type in
      collect_parts rest (final_parts_list ++ [search_result])%list
  end.

Definition greeting : string :=
  "Hello! I'm your PC building expert assistant. To get started, what do you plan to use this PC for and what is your approximate budget?".

Definition ask_budget : string :=
  "I see. And what is your approximate budget for the new PC?".

Definition ask_use_case (needs : NeedsAnalysis) : string :=
  "Got it, a budget of around $" ++ str_of_int (budget needs)
  ++ ". What is the primary use for this PC? For example: high-end gaming, video editing, or just office work and web Browse?".

Definition ask_confirm (needs : NeedsAnalysis) : string :=
  "Okay, just to confirm: you're looking for a PC for **" ++ use_case needs
  ++ "** with a budget around **$" ++ str_of_int (budget needs)
  ++ "**. Is that correct?".

Definition failure_message : string :=
  "I'm sorry, I encountered an error while searching for parts. Please try again.".

(** Lines 210 to 223: component selection and final output. *)
Definition build_report (needs : NeedsAnalysis) : M string :=
  print "User confirmed. Starting build process..." ;;
  selected_build <- lift (select_build_tier (budget needs) (use_case needs)) ;;
  final_parts_list <- collect_parts (build_parts selected_build) [] ;;
  match final_parts_list with
  | [] => ret failure_message
  | _ => lift (format_results_as_markdown selected_build final_parts_list)
  end.

(** Lines 200 to 223: what [get_assistant_response] does with [needs]. *)
Definition respond_to_needs (needs : NeedsAnalysis) : M string :=
  if budget needs =? 0 then ret ask_budget
  else if String.eqb (use_case needs) "unknown" then ret (ask_use_case needs)
  else if negb (has_confirmed needs) then ret (ask_confirm needs)
  else build_report needs.

(** Lines 194 and 195. *)
Definition transcript (user_message : string) (chat_history : list (string * string))
  : string :=
  join LF (map (fun turn => "User: " ++ fst turn ++ LF ++ "Assistant: " ++ snd turn)
               chat_history)
  ++ LF ++ "User: " ++ user_message.

Definition get_assistant_response (user_message : string)
    (chat_history : list (string * string)) : M string :=
  match chat_history with
  | [] => ret greeting
  | _ =>
      let history_str := transcript user_message chat_history in
      needs <- analyze_user_needs history_str ;;
      respond_to_needs needs
  end.

End Assistant.

(* ===================================================================== *)
(** * Vocabulary of the statements *)
(* ===================================================================== *)

(** [needle] occurs in [haystack]. *)
Definition Substring (needle haystack : string) : Prop :=
  exists before after, haystack = before ++ needle ++ after.

(** The four tiers of the catalog, in its order. *)
Definition catalog_tiers : list build := map snd PC_BUILDS.

(** The dictionary [analyze_user_needs] passes to the chain. *)
Definition extraction_input (w : world) (chat_history_str : string) : dict string :=
  [ ("system_prompt", system_prompt);
    ("format_prompt", get_format_instructions w);
    ("user_prompt", chat_history_str) ].

Definition missing_chat_history : exn :=
  KeyError "Input to PromptTemplate is missing variables {'chat_history'}".

(** The exception of [float] on a string that is no numeral. *)
Definition not_a_float (s : string) : exn :=
  ValueError ("could not convert string to float: '" ++ s ++ "'").

(** ** Part listings *)

(** The five entries of a listing once the orchestrator has set its type. *)
Record part_listing : Type := {
  part_type : string;
  part_name : string;
  part_price : string;
  part_link : string;
  part_image : string
}.

(** The dictionary of a listing: the four keys of
    [search_amazon_for_component] in its order, then ["type"]. *)
Definition as_dict (l : part_listing) : dict string :=
  [ ("name", part_name l); ("price", part_price l); ("link", part_link l);
    ("image", part_image l); ("type", part_type l) ].

(** The row of the table for a listing. *)
Definition row_text (l : part_listing) : string :=
  "| **" ++ part_type l ++ "** | [" ++ part_name l ++ "](" ++ part_link l ++ ") "
  ++ "| " ++ part_price l ++ " "
  ++ "| ![" ++ part_name l ++ "](" ++ part_image l ++ ") |" ++ LF.

Fixpoint rows_text (parts : list part_listing) : string :=
  match parts with
  | [] => ""
  | l :: rest => row_text l ++ rows_text rest
  end.

(** ** The estimated total, in the words of the specification

    For each listing the numeric portion of the price is what is left once
    every character that is not a digit or a decimal point is stripped; an
    empty portion contributes zero, any other is parsed as a float and
    added. *)
Definition price_contribution (price : string) : outcome spec_float :=
  let numeric := strip_non_numeric price in
  if is_empty numeric then Ok (S754_zero false) else py_float numeric.

Fixpoint estimated_total_from (total : spec_float) (prices : list string)
  : outcome spec_float :=
  match prices with
  | [] => Ok total
  | price :: rest =>
      x <~ price_contribution price ;;
      estimated_total_from (float_add total x) rest
  end.

Definition estimated_total (prices : list string) : outcome spec_float :=
  estimated_total_from (S754_zero false) prices.

(** A price the report can add up. *)
Definition price_parses (price : string) : bool :=
  is_ok (price_contribution price).

(** Zero, or a finite non-zero number. *)
Definition is_finite (x : spec_float) : bool :=
  match x with
  | S754_zero _ | S754_finite _ _ _ => true
  | S754_infinity _ | S754_nan => false
  end.

(** Zero, positive, or plus infinity. *)
Definition nonneg (x : spec_float) : Prop :=
  match x with
  | S754_zero s | S754_infinity s | S754_finite s _ _ => s = false
  | S754_nan => False
  end.

Fixpoint all_digits (s : string) : bool :=
  match s with
  | EmptyString => true
  | String c rest => is_digit c && all_digits rest
  end.

(** A rendering with exactly two decimal places: digits, a dot, two
    digits. *)
Definition two_decimal_places (s : string) : Prop :=
  exists whole d1 d2,
    s = whole ++ "." ++ String d1 (String d2 "")
    /\ whole <> "" /\ all_digits whole = true
    /\ is_digit d1 = true /\ is_digit d2 = true.

(** ** Price lookups *)

(** The parameters of the search for a part, and what one lookup adds to
    the trace. *)
Definition lookup_params (w : world) (name : string) : search_params :=
  {| engine := "google"; q := "amazon.com " ++ name; tbm := "shop";
     num := 1; api_key := SERPAPI_API_KEY w |}.

Definition lookup_events (w : world) (name : string) : trace :=
  [ Printed ("Searching for: " ++ name); SearchCall (lookup_params w name) ].

Definition all_lookup_events (w : world) (items : dict string) : trace :=
  flat_map (fun item => lookup_events w (snd item)) items.

(** The listing a lookup makes of the dictionary the search returned. *)
Definition listing_of_results (name : string) (results : search_results)
  : dict string :=
  match dict_get results "shopping_results" [] with
  | product :: _ =>
      [ ("name", dict_get product "title" name);
        ("price", dict_get product "price" "N/A");
        ("link", dict_get product "link" "#");
        ("image", dict_get product "thumbnail" "") ]
  | [] => [ ("name", name); ("price", "Not Found"); ("link", "#"); ("image", "") ]
  end.

(** The price of that listing. *)
Definition price_of_results (results : search_results) : string :=
  match dict_get results "shopping_results" [] with
  | product :: _ => dict_get product "price" "N/A"
  | [] => "Not Found"
  end.

(** The searches of a trace, in order. *)
Fixpoint search_queries (t : trace) : list string :=
  match t with
  | [] => []
  | SearchCall params :: rest => q params :: search_queries rest
  | _ :: rest => search_queries rest
  end.

Fixpoint llm_calls (t : trace) : nat :=
  match t with
  | [] => O
  | LLMCall _ :: rest => S (llm_calls rest)
  | _ :: rest => llm_calls rest
  end.

(** What a confirmed turn prints first. *)
Definition confirmation_print : event :=
  Printed "User confirmed. Starting build process...".

(** The first character of a report. *)
Definition starts_with_hash (s : string) : Prop :=
  exists tail, s = String "#" tail.

(** Every search of the lookups of [items], made in turn from the trace
    [t], returns. *)
Fixpoint searches_return (w : world) (t : trace) (items : dict string) : Prop :=
  match items with
  | [] => True
  | (_, name) :: rest =>
      is_ok (GoogleSearch w (t ++ [Printed ("Searching for: " ++ name)])%list
                          (lookup_params w name)) = true
      /\ searches_return w (t ++ lookup_events w name)%list rest
  end.

(** The query of the search for a part of a tier. *)
Definition query_of (item : string * string) : string :=
  "amazon.com " ++ snd item.

(** The search answers every call. *)
Definition search_answers (w : world) : Prop :=
  forall t params, exists results, GoogleSearch w t params = Ok results.

(** Every price the search returns can be added up. *)
Definition prices_parse (w : world) : Prop :=
  forall t params results,
    GoogleSearch w t params = Ok results ->
    price_parses (price_of_results results) = true.

(** ** Sample collaborators *)

(** The prompt the chain would need for the input of
    [analyze_user_needs]: its third variable is [user_prompt]. *)
Definition matching_template : PromptTemplate := {|
  template :=
    "System: {system_prompt}" ++ LF ++ "{format_prompt}" ++ LF ++
    "Human: Here is the chat history:" ++ LF ++ "{user_prompt}" ++ LF ++ "AI:";
  input_variables := ["system_prompt"; "format_prompt"; "user_prompt"]
|}.

Definition sample_needs : NeedsAnalysis :=
  {| budget := 2000; use_case := "gaming"; has_confirmed := true |}.

(** A shop where every part costs $199.99. *)
Definition shop_world : world := {|
  LLM := fun _ _ => Ok "{}";
  json_parser := fun _ => Ok sample_needs;
  get_format_instructions := "Return a JSON object.";
  GoogleSearch := fun _ params =>
    Ok [ ("shopping_results",
          [ [ ("title", q params); ("price", "$199.99");
              ("link", "https://www.amazon.com/dp/0"); ("thumbnail", "t.png") ] ]) ];
  SERPAPI_API_KEY := "key"
|}.

(** A shop that has nothing, behind a model that cannot be reached. *)
Definition offline_world : world := {|
  LLM := fun _ _ => Raise (ExternalError "connection refused");
  json_parser := fun _ => Raise (ValueError "Invalid json output");
  get_format_instructions := "Return a JSON object.";
  GoogleSearch := fun _ _ => Ok [];
  SERPAPI_API_KEY := "key"
|}.

(** A shop that quotes a price range. *)
Definition price_range_world : world := {|
  LLM := fun _ _ => Ok "{}";
  json_parser := fun _ => Ok sample_needs;
  get_format_instructions := "Return a JSON object.";
  GoogleSearch := fun _ params =>
    Ok [ ("shopping_results",
          [ [ ("title", q params); ("price", "$19.99 - $29.99");
              ("link", "https://www.amazon.com/dp/0"); ("thumbnail", "t.png") ] ]) ];
  SERPAPI_API_KEY := "key"
|}.

(** A search that cannot be reached. *)
Definition search_down_world : world := {|
  LLM := fun _ _ => Ok "{}";
  json_parser := fun _ => Ok sample_needs;
  get_format_instructions := "Return a JSON object.";
  GoogleSearch := fun _ _ => Raise (ExternalError "connection refused");
  SERPAPI_API_KEY := "key"
|}.

(** A price of 310 digits: one followed by 309 zeros. *)
Definition astronomic_price : string :=
  String "1" (string_of_list_ascii (repeat "0"%char 309)).

Definition listing_priced (price : string) : part_listing :=
  {| part_type := "CPU"; part_name := "AMD Ryzen 7 7800X3D"; part_price := price;
     part_link := "#"; part_image := "" |}.

(** ** Vocabulary of the further properties *)

Fixpoint count_dots (s : string) : nat :=
  match s with
  | EmptyString => O
  | String c rest => ((if is_dot c then 1 else 0) + count_dots rest)%nat
  end.

Fixpoint count_digits (s : string) : nat :=
  match s with
  | EmptyString => O
  | String c rest => ((if is_digit c then 1 else 0) + count_digits rest)%nat
  end.

(** Made of digits and dots only. *)
Fixpoint numeric_only (s : string) : bool :=
  match s with
  | EmptyString => true
  | String c rest => (is_digit c || is_dot c) && numeric_only rest
  end.

(** A price with at least one digit or dot. *)
Definition has_numeric (price : string) : bool :=
  negb (is_empty (strip_non_numeric price)).

(** The prices the report can add up, by their characters: no digit and
    no dot, or at least one digit and at most one dot. *)
Definition addable (price : string) : Prop :=
  (count_digits price = 0 /\ count_dots price = 0)%nat
  \/ (1 <= count_digits price /\ count_dots price <= 1)%nat.

(** The record lets the turn go on to the build. *)
Definition confirmed (needs : NeedsAnalysis) : Prop :=
  budget needs <> 0 /\ use_case needs <> "unknown" /\ has_confirmed needs = true.

(** The search returns, without any shopping result. *)
Definition finds_nothing (w : world) : Prop :=
  forall t params,
    exists results,
      GoogleSearch w t params = Ok results
      /\ dict_get results "shopping_results" [] = [].

(** The listing of a part that was not found. *)
Definition not_found_listing (item : string * string) : part_listing :=
  {| part_type := fst item; part_name := snd item; part_price := "Not Found";
     part_link := "#"; part_image := "" |}.

(** The collaborators answer by what they are asked, whatever happened
    before. *)
Definition deterministic (w : world) : Prop :=
  (forall t t' text, LLM w t text = LLM w t' text) /\
  (forall t t' params, GoogleSearch w t params = GoogleSearch w t' params).

(** A computation that returns the same and adds the same events from
    any two traces. *)
Definition framed {A} (m : M A) : Prop :=
  forall t t',
    exists r events,
      m t = (r, (t ++ events)%list) /\ m t' = (r, (t' ++ events)%list).

(** The text of [llama_template] once its three fields are filled. *)
Definition llama_prompt_text (system format_instructions history : string)
  : string :=
  "System: " ++ system ++ LF ++ format_instructions ++ LF
  ++ "Human: Here is the chat history:" ++ LF ++ history ++ LF ++ "AI:".

(** A shop whose products carry no price. *)
Definition unpriced_world : world := {|
  LLM := fun _ _ => Ok "{}";
  json_parser := fun _ => Ok sample_needs;
  get_format_instructions := "Return a JSON object.";
  GoogleSearch := fun _ params =>
    Ok [ ("shopping_results", [ [ ("title", q params) ] ]) ];
  SERPAPI_API_KEY := "key"
|}.

(* ===================================================================== *)
(** * Properties of the Python values *)
(* ===================================================================== *)

Lemma contains_unfold (needle haystack : string) :
  contains needle haystack =
  String.prefix needle haystack
  || match haystack with
     | EmptyString => false
     | String _ rest => contains needle rest
     end.
Proof. destruct haystack; reflexivity. Qed.

Lemma contains_cons (needle : string) (c : ascii) (rest : string) :
  contains needle (String c rest) =
  String.prefix needle (String c rest) || contains needle rest.
Proof. reflexivity. Qed.

Lemma prefix_append (s after : string) : String.prefix s (s ++ after) = true.
Proof.
  induction s as [|c s IH]; simpl.
  - destruct after; reflexivity.
  - destruct (ascii_dec c c) as [_|ne]; [exact IH | now elim ne].
Qed.

Lemma prefix_split (s1 s2 : string) :
  String.prefix s1 s2 = true -> exists after, s2 = s1 ++ after.
Proof.
  revert s2; induction s1 as [|c s1 IH]; intros s2 H.
  - now exists s2.
  - destruct s2 as [|c' s2]; simpl in H; [discriminate|].
    destruct (ascii_dec c c') as [->|_]; [|discriminate].
    destruct (IH _ H) as [after ->].
    now exists after.
Qed.

Lemma contains_correct (needle haystack : string) :
  contains needle haystack = true <-> Substring needle haystack.
Proof.
  split.
  - induction haystack as [|c rest IH]; rewrite contains_unfold; intros H;
      apply orb_true_iff in H; destruct H as [H|H].
    + destruct (prefix_split _ _ H) as [after E]. now exists "", after.
    + discriminate.
    + destruct (prefix_split _ _ H) as [after E]. now exists "", after.
    + destruct (IH H) as (before & after & ->).
      now exists (String c before), after.
  - intros (before & after & ->).
    induction before as [|c before IH].
    + change ("" ++ needle ++ after) with (needle ++ after).
      rewrite contains_unfold. now rewrite prefix_append.
    + change (String c before ++ needle ++ after)
        with (String c (before ++ needle ++ after)).
      rewrite contains_cons, IH. apply orb_true_r.
Qed.

Lemma contains_false (needle haystack : string) :
  contains needle haystack = false <-> ~ Substring needle haystack.
Proof.
  rewrite <- contains_correct.
  destruct (contains needle haystack); split; intros H;
    try reflexivity; try discriminate; try (intros E; discriminate).
  now elim H.
Qed.

(* ===================================================================== *)
(** * Properties of the build selection *)
(* ===================================================================== *)

Lemma catalog_has_four_tiers :
  catalog_tiers =
  [budget_office; mid_range_gaming; high_end_gaming; professional_workstation].
Proof. reflexivity. Qed.

Lemma mid_range_is_not_high_end : mid_range_gaming <> high_end_gaming.
Proof. discriminate. Qed.

(** C5.  A use case that contains "gaming" is served by the mid-range
    gaming tier below 1600 and by the high-end gaming tier from 1600 on,
    however large the budget; 1500 gives mid-range and 1600 gives
    high-end. *)
Theorem select_build_tier_gaming :
  (forall budget use_case,
      Substring "gaming" use_case -> budget < 1600 ->
      select_build_tier budget use_case = Ok mid_range_gaming) /\
  (forall budget use_case,
      Substring "gaming" use_case -> 1600 <= budget ->
      select_build_tier budget use_case = Ok high_end_gaming) /\
  select_build_tier 1500 "gaming" = Ok mid_range_gaming /\
  select_build_tier 1600 "gaming" = Ok high_end_gaming.
Proof.
  repeat split; try reflexivity.
  - intros budget use_case Hg Hb.
    apply contains_correct in Hg.
    unfold select_build_tier. rewrite Hg.
    apply Z.ltb_lt in Hb. now rewrite Hb.
  - intros budget use_case Hg Hb.
    apply contains_correct in Hg.
    unfold select_build_tier. rewrite Hg.
    apply Z.ltb_ge in Hb. now rewrite Hb.
Qed.

Lemma select_build_tier_gaming_witness :
  select_build_tier 1200 "casual gaming and streaming" = Ok mid_range_gaming /\
  select_build_tier 250000 "gaming" = Ok high_end_gaming.
Proof.
  destruct select_build_tier_gaming as (below & above & _).
  split.
  - apply below; [|lia].
    exists "casual ", " and streaming". reflexivity.
  - apply above; [|lia].
    exists "", "". reflexivity.
Defined.

(** C6.  [select_build_tier] always returns one of the four tiers of the
    catalog.  Without "gaming", "editing" gives the workstation whatever
    the budget; without "gaming" and "editing", "office" gives the office
    tier whatever the budget; without any of the three words the budget
    alone decides: up to 700 the office tier, up to 1600 the mid-range
    gaming tier, above the high-end gaming tier. *)
Theorem select_build_tier_total :
  (forall budget use_case,
      exists b, select_build_tier budget use_case = Ok b /\ In b catalog_tiers) /\
  (forall budget use_case,
      ~ Substring "gaming" use_case -> Substring "editing" use_case ->
      select_build_tier budget use_case = Ok professional_workstation) /\
  (forall budget use_case,
      ~ Substring "gaming" use_case -> ~ Substring "editing" use_case ->
      Substring "office" use_case ->
      select_build_tier budget use_case = Ok budget_office) /\
  (forall budget use_case,
      ~ Substring "gaming" use_case -> ~ Substring "editing" use_case ->
      ~ Substring "office" use_case ->
      select_build_tier budget use_case =
      Ok (if budget <=? 700 then budget_office
          else if budget <=? 1600 then mid_range_gaming
          else high_end_gaming)).
Proof.
  split; [|split; [|split]].
  - intros budget use_case. unfold select_build_tier.
    destruct (contains "gaming" use_case);
      [destruct (budget <? 1600)|
       destruct (contains "editing" use_case);
       [|destruct (contains "office" use_case);
         [|destruct (budget <=? 700); [|destruct (budget <=? 1600)]]]];
      eexists; (split; [reflexivity|]); rewrite catalog_has_four_tiers;
      simpl; tauto.
  - intros budget use_case Hg He.
    apply contains_false in Hg. apply contains_correct in He.
    unfold select_build_tier. now rewrite Hg, He.
  - intros budget use_case Hg He Ho.
    apply contains_false in Hg. apply contains_false in He.
    apply contains_correct in Ho.
    unfold select_build_tier. now rewrite Hg, He, Ho.
  - intros budget use_case Hg He Ho.
    apply contains_false in Hg. apply contains_false in He.
    apply contains_false in Ho.
    unfold select_build_tier. rewrite Hg, He, Ho.
    destruct (budget <=? 700); [reflexivity|].
    destruct (budget <=? 1600); reflexivity.
Qed.

Lemma select_build_tier_total_witness :
  select_build_tier 999999 "video editing" = Ok professional_workstation /\
  select_build_tier 5000 "home office" = Ok budget_office /\
  select_build_tier 500 "unknown" = Ok budget_office /\
  select_build_tier 1600 "unknown" = Ok mid_range_gaming /\
  select_build_tier 1601 "unknown" = Ok high_end_gaming.
Proof.
  destruct select_build_tier_total as (_ & editing & office & fallback).
  assert (no : forall needle haystack,
             contains needle haystack = false -> ~ Substring needle haystack)
    by (intros; now apply contains_false).
  split; [|split; [|split; [|split]]].
  - apply editing; [now apply no|]. exists "video ", "". reflexivity.
  - apply office; [now apply no|now apply no|]. exists "home ", "". reflexivity.
  - apply (fallback 500 "unknown"); now apply no.
  - apply (fallback 1600 "unknown"); now apply no.
  - apply (fallback 1601 "unknown"); now apply no.
Defined.

(* ===================================================================== *)
(** * Properties of intent extraction *)
(* ===================================================================== *)

Lemma search_queries_app t1 t2 :
  search_queries (t1 ++ t2)%list = (search_queries t1 ++ search_queries t2)%list.
Proof.
  induction t1 as [|[line|text|params] t1 IH]; simpl; trivial. now rewrite IH.
Qed.

Lemma llm_calls_app t1 t2 :
  llm_calls (t1 ++ t2)%list = (llm_calls t1 + llm_calls t2)%nat.
Proof.
  induction t1 as [|[line|text|params] t1 IH]; simpl; trivial. now rewrite IH.
Qed.

Lemma analyze_user_needs_unfold w p s :
  analyze_user_needs w p s =
  try_except (response <- chain_invoke w p (extraction_input w s) ;; ret response)
             (fun e => print ("Error analyzing user needs: " ++ exn_text e) ;;
                       ret sentinel_needs).
Proof. reflexivity. Qed.

Lemma analyze_user_needs_raise w p s t e t' :
  chain_invoke w p (extraction_input w s) t = (Raise e, t') ->
  analyze_user_needs w p s t =
  (Ok sentinel_needs,
   (t' ++ [Printed ("Error analyzing user needs: " ++ exn_text e)])%list).
Proof.
  intros H. rewrite analyze_user_needs_unfold.
  unfold try_except, bind at 1. rewrite H. reflexivity.
Qed.

Lemma analyze_user_needs_return w p s t needs t' :
  chain_invoke w p (extraction_input w s) t = (Ok needs, t') ->
  analyze_user_needs w p s t = (Ok needs, t').
Proof.
  intros H. rewrite analyze_user_needs_unfold.
  unfold try_except, bind at 1. rewrite H. reflexivity.
Qed.

(** [analyze_user_needs] never raises, whatever the chain does. *)
Lemma analyze_user_needs_never_raises w p s t :
  exists needs t', analyze_user_needs w p s t = (Ok needs, t').
Proof.
  destruct (chain_invoke w p (extraction_input w s) t) as [[needs|e] t'] eqn:H.
  - exists needs, t'. apply analyze_user_needs_return. exact H.
  - eexists _, _. apply analyze_user_needs_raise. exact H.
Qed.

Lemma llama_template_misses_chat_history w s :
  missing_variables llama_template (extraction_input w s) = ["chat_history"].
Proof. reflexivity. Qed.

Lemma chain_invoke_llama_template w s t :
  chain_invoke w llama_template (extraction_input w s) t
  = (Raise missing_chat_history, t).
Proof. reflexivity. Qed.

Lemma get_assistant_response_cons w p msg turn history :
  get_assistant_response w p msg (turn :: history) =
  (needs <- analyze_user_needs w p (transcript msg (turn :: history)) ;;
   respond_to_needs w needs).
Proof. reflexivity. Qed.

(** On a non-empty history the turn answers the record the analysis
    returned. *)
Lemma get_assistant_response_resolves w p user_message turn history t needs t' :
  analyze_user_needs w p (transcript user_message (turn :: history)) t
  = (Ok needs, t') ->
  get_assistant_response w p user_message (turn :: history) t
  = respond_to_needs w needs t'.
Proof.
  intros H. rewrite get_assistant_response_cons. unfold bind at 1.
  now rewrite H.
Qed.

Lemma respond_to_sentinel w t :
  respond_to_needs w sentinel_needs t = (Ok ask_budget, t).
Proof. reflexivity. Qed.

(** C3.  With the module's own prompt the chain raises a [KeyError] on
    every transcript, before the model is called: the template declares
    [chat_history] and the input carries [user_prompt].  So
    [analyze_user_needs] returns the all-sentinel record for every
    transcript, and [get_assistant_response] answers every non-empty
    history with the question about the budget, without any call to the
    model or to the search. *)
Theorem prompt_key_mismatch_asks_budget (w : world) (t : trace) :
  In "chat_history" (input_variables llama_template) /\
  (forall s,
      dict_keys (extraction_input w s)
      = ["system_prompt"; "format_prompt"; "user_prompt"] /\
      exists what,
        chain_invoke w llama_template (extraction_input w s) t
        = (Raise (KeyError what), t)) /\
  (forall s,
      fst (analyze_user_needs w llama_template s t)
      = Ok {| budget := 0; use_case := "unknown"; has_confirmed := false |}) /\
  (forall user_message turn history,
      let run :=
        get_assistant_response w llama_template user_message (turn :: history) t in
      fst run = Ok ask_budget /\
      llm_calls (snd run) = llm_calls t /\
      search_queries (snd run) = search_queries t).
Proof.
  split; [simpl; tauto|]. split; [|split].
  - intros s. split; [reflexivity|].
    eexists. apply chain_invoke_llama_template.
  - intros s.
    now rewrite (analyze_user_needs_raise _ _ _ _ _ _
                   (chain_invoke_llama_template w s t)).
  - intros user_message turn history run.
    assert (E : run = (Ok ask_budget,
                       (t ++ [Printed ("Error analyzing user needs: "
                                       ++ exn_text missing_chat_history)])%list)).
    { subst run.
      rewrite (get_assistant_response_resolves _ _ _ _ _ _ _ _
                 (analyze_user_needs_raise _ _ _ _ _ _
                    (chain_invoke_llama_template w _ t))).
      apply respond_to_sentinel. }
    rewrite E. cbn [fst snd].
    rewrite llm_calls_app, search_queries_app. simpl.
    rewrite Nat.add_0_r, app_nil_r. repeat split.
Qed.

(** C7.  Whatever makes the chain raise (the prompt, the model or the
    parser), [analyze_user_needs] returns the all-sentinel record and no
    exception, and the turn answers with the question about the budget. *)
Theorem extraction_failure_asks_budget
    (w : world) (p : PromptTemplate) (s : string) (t t' : trace) (e : exn)
    (failure : chain_invoke w p (extraction_input w s) t = (Raise e, t')) :
  fst (analyze_user_needs w p s t)
  = Ok {| budget := 0; use_case := "unknown"; has_confirmed := false |} /\
  (forall user_message turn history,
      transcript user_message (turn :: history) = s ->
      fst (get_assistant_response w p user_message (turn :: history) t)
      = Ok ask_budget).
Proof.
  pose proof (analyze_user_needs_raise _ _ _ _ _ _ failure) as H.
  split.
  - now rewrite H.
  - intros user_message turn history <-.
    rewrite get_assistant_response_cons. unfold bind at 1.
    rewrite H. reflexivity.
Qed.

(* ===================================================================== *)
(** * Properties of the dialogue *)
(* ===================================================================== *)

(** C9.  On an empty history the answer is the greeting, and nothing is
    called or printed: the trace is left as it was. *)
Theorem empty_history_greets (w : world) (p : PromptTemplate)
    (user_message : string) (t : trace) :
  get_assistant_response w p user_message [] t = (Ok greeting, t).
Proof. reflexivity. Qed.

Lemma extraction_failure_asks_budget_witness :
  fst (analyze_user_needs offline_world matching_template
         (transcript "around 2000" [("a gaming pc", greeting)]) [])
  = Ok {| budget := 0; use_case := "unknown"; has_confirmed := false |} /\
  fst (get_assistant_response offline_world matching_template
         "around 2000" [("a gaming pc", greeting)] [])
  = Ok ask_budget.
Proof.
  destruct (extraction_failure_asks_budget offline_world matching_template
              (transcript "around 2000" [("a gaming pc", greeting)]) []
              (snd (chain_invoke offline_world matching_template
                      (extraction_input offline_world
                         (transcript "around 2000" [("a gaming pc", greeting)])) []))
              (ExternalError "connection refused"))
    as [record answer].
  - reflexivity.
  - split; [exact record|]. apply answer. reflexivity.
Defined.

(** ** The lookups of a confirmed turn *)

Lemma search_amazon_for_component_run w name t :
  search_amazon_for_component w name t =
  (match GoogleSearch w (t ++ [Printed ("Searching for: " ++ name)])%list
                      (lookup_params w name) with
   | Ok results => Ok (listing_of_results name results)
   | Raise e => Raise e
   end,
   (t ++ lookup_events w name)%list).
Proof.
  unfold search_amazon_for_component, bind, print, search_call, lookup_events.
  fold (lookup_params w name).
  rewrite <- app_assoc. simpl app.
  destruct (GoogleSearch w _ (lookup_params w name)) as [results|e]; [|reflexivity].
  unfold listing_of_results.
  destruct (dict_get results "shopping_results" []); reflexivity.
Qed.

Lemma typed_listing_of_results name type results :
  dict_setitem (listing_of_results name results) "type" type =
  as_dict {| part_type := type;
             part_name := dict_get (listing_of_results name results) "name" "";
             part_price := price_of_results results;
             part_link := dict_get (listing_of_results name results) "link" "";
             part_image := dict_get (listing_of_results name results) "image" "" |}.
Proof.
  unfold listing_of_results, price_of_results.
  destruct (dict_get results "shopping_results" []); reflexivity.
Qed.

Lemma collect_parts_cons w type name rest acc t :
  collect_parts w ((type, name) :: rest) acc t =
  match search_amazon_for_component w name t with
  | (Ok found, t') =>
      collect_parts w rest (acc ++ [dict_setitem found "type" type])%list t'
  | (Raise e, t') => (Raise e, t')
  end.
Proof. reflexivity. Qed.

(** The lookups go through the parts in order, one search each, and stop
    at the first search that raises. *)
Lemma collect_parts_calls w items acc t :
  exists done todo,
    items = (done ++ todo)%list /\
    snd (collect_parts w items acc t) = (t ++ all_lookup_events w done)%list /\
    (is_ok (fst (collect_parts w items acc t)) = true -> todo = []).
Proof.
  revert acc t. induction items as [|[type name] rest IH]; intros acc t.
  - exists [], []. simpl. rewrite app_nil_r. repeat split; reflexivity.
  - rewrite collect_parts_cons, search_amazon_for_component_run.
    destruct (GoogleSearch w _ _) as [results|e].
    + destruct (IH (acc ++ [dict_setitem (listing_of_results name results) "type" type])%list
                   (t ++ lookup_events w name)%list)
        as (done & todo & -> & Htrace & Hok).
      exists ((type, name) :: done), todo. split; [reflexivity|]. split.
      * rewrite Htrace. unfold all_lookup_events. simpl flat_map.
        now rewrite <- !app_assoc.
      * exact Hok.
    + exists [(type, name)], rest. split; [reflexivity|]. split.
      * unfold all_lookup_events. simpl. reflexivity.
      * simpl. discriminate.
Qed.


(* ===================================================================== *)
(** * Properties of the floats *)
(* ===================================================================== *)

Lemma shr_1_nonneg mrs : 0 <= shr_m mrs -> 0 <= shr_m (shr_1 mrs).
Proof.
  destruct mrs as [m r s]. simpl.
  destruct m as [|[p|p|]|[p|p|]]; simpl; lia.
Qed.

Lemma iter_shr_1_nonneg p :
  forall mrs, 0 <= shr_m mrs -> 0 <= shr_m (iter_pos shr_1 p mrs).
Proof.
  induction p as [p IH|p IH|]; intros mrs H; simpl.
  - apply IH, IH, shr_1_nonneg, H.
  - apply IH, IH, H.
  - apply shr_1_nonneg, H.
Qed.

Lemma shr_fexp_nonneg m e l :
  0 <= m -> 0 <= shr_m (fst (shr_fexp prec emax m e l)).
Proof.
  intros H. unfold shr_fexp, shr.
  assert (H0 : 0 <= shr_m (shr_record_of_loc m l))
    by (destruct l as [|[]]; exact H).
  destruct (fexp prec emax (Zdigits2 m + e) - e) as [|p|p]; simpl; trivial.
  now apply iter_shr_1_nonneg.
Qed.

Lemma round_nearest_even_nonneg m l : 0 <= m -> 0 <= round_nearest_even m l.
Proof.
  intros H. unfold round_nearest_even.
  destruct l as [|[]]; try destruct (Z.even m); lia.
Qed.

Lemma binary_round_aux_nonneg m e l :
  0 <= m -> nonneg (binary_round_aux prec emax false m e l).
Proof.
  intros H. unfold binary_round_aux.
  pose proof (shr_fexp_nonneg m e l H) as H1.
  destruct (shr_fexp prec emax m e l) as [mrs' e']. simpl in H1.
  pose proof (shr_fexp_nonneg _ e' loc_Exact
                (round_nearest_even_nonneg _ (loc_of_shr_record mrs') H1)) as H2.
  destruct (shr_fexp prec emax _ e' loc_Exact) as [mrs'' e'']. simpl in H2.
  destruct (shr_m mrs'') as [|p|p].
  - reflexivity.
  - destruct (e'' <=? emax - prec); reflexivity.
  - lia.
Qed.

Lemma binary_round_nonneg m e : nonneg (binary_round prec emax false m e).
Proof.
  unfold binary_round.
  destruct (shl_align m e _) as [mz ez].
  apply binary_round_aux_nonneg. lia.
Qed.

Lemma float_add_nonneg x y : nonneg x -> nonneg y -> nonneg (float_add x y).
Proof.
  destruct x as [sx|sx| |sx mx ex], y as [sy|sy| |sy my ey]; simpl;
    intros Hx Hy; subst; try contradiction; try reflexivity.
  unfold float_add, SFadd, cond_Zopp.
  cbv beta iota zeta.
  change (Z.pos ?a + Z.pos ?b) with (Z.pos (a + b)).
  apply binary_round_nonneg.
Qed.

Lemma float_add_zero_r x : nonneg x -> float_add x (S754_zero false) = x.
Proof.
  destruct x as [sx|sx| |sx mx ex]; simpl; intros H; subst;
    try contradiction; reflexivity.
Qed.

Lemma float_of_ratio_nonneg m scale :
  scale <> 0%N -> nonneg (float_of_ratio m scale).
Proof.
  intros Hs. unfold float_of_ratio.
  destruct m as [|pm]; [reflexivity|].
  destruct scale as [|ps]; [now elim Hs|].
  unfold SFdiv.
  destruct (SFdiv_core_binary prec emax (Z.pos pm) 0 (Z.pos ps) 0)
    as [[mz ez] lz] eqn:E.
  apply binary_round_aux_nonneg.
  unfold SFdiv_core_binary in E.
  set (shifted := match _ - _ - _ with Z0 => _ | Z.pos _ => _ | Z.neg _ => _ end) in E.
  assert (Hm : 0 <= shifted).
  { subst shifted. destruct (_ - _ - _) as [|p|p]; try lia.
    apply Z.shiftl_nonneg. lia. }
  pose proof (Z.div_pos shifted (Z.pos ps) Hm ltac:(lia)) as Hq.
  unfold Z.div in Hq.
  destruct (Z.div_eucl shifted (Z.pos ps)) as [quo r].
  injection E as <- _ _. exact Hq.
Qed.

Lemma scan_decimal_scale s :
  forall m dot any scale m' scale',
    scale <> 0%N ->
    scan_decimal s m dot any scale = Some (m', scale') -> scale' <> 0%N.
Proof.
  induction s as [|c s IH]; intros m dot any scale m' scale' Hs H;
    cbn [scan_decimal] in H.
  - destruct any; [|discriminate]. injection H as _ <-. exact Hs.
  - destruct (is_digit c).
    + apply IH in H; [exact H|]. destruct dot; lia.
    + destruct (is_dot c); [|discriminate].
      destruct dot; [discriminate|]. now apply IH in H.
Qed.

Lemma py_float_nonneg s x : py_float s = Ok x -> nonneg x.
Proof.
  unfold py_float.
  destruct (scan_decimal s 0 false false 1) as [[m scale]|] eqn:E; [|discriminate].
  intros [= <-]. apply float_of_ratio_nonneg.
  eapply scan_decimal_scale; [|exact E]. lia.
Qed.

Lemma price_contribution_nonneg price x :
  price_contribution price = Ok x -> nonneg x.
Proof.
  unfold price_contribution.
  destruct (is_empty (strip_non_numeric price)).
  - now intros [= <-].
  - apply py_float_nonneg.
Qed.

Lemma estimated_total_from_nonneg prices :
  forall total total',
    nonneg total -> estimated_total_from total prices = Ok total' -> nonneg total'.
Proof.
  induction prices as [|price rest IH]; intros total total' Ht H; simpl in H.
  - now injection H as <-.
  - destruct (price_contribution price) as [x|e] eqn:E; [|discriminate].
    simpl in H. apply IH in H; [exact H|].
    apply float_add_nonneg; [exact Ht|]. now apply price_contribution_nonneg in E.
Qed.

(* ===================================================================== *)
(** * Properties of the report *)
(* ===================================================================== *)

Lemma append_assoc (a b c : string) : (a ++ b) ++ c = a ++ (b ++ c).
Proof. induction a as [|x a IH]; simpl; [reflexivity|now rewrite IH]. Qed.

Lemma append_nil_r (a : string) : a ++ "" = a.
Proof. induction a as [|x a IH]; simpl; [reflexivity|now rewrite IH]. Qed.

Lemma table_row_listing l : table_row (as_dict l) = Ok (row_text l).
Proof. reflexivity. Qed.

Lemma price_of_listing l : dict_getitem (as_dict l) "price" = Ok (part_price l).
Proof. reflexivity. Qed.

(** Skipping a price adds the float zero. *)
Lemma add_price_contribution total price :
  nonneg total ->
  add_price total price =
  (x <~ price_contribution price ;; Ok (float_add total x)).
Proof.
  intros H. unfold add_price, price_contribution.
  destruct (is_empty (strip_non_numeric price)); [|reflexivity].
  simpl. now rewrite float_add_zero_r.
Qed.

Lemma format_parts_cons part rest total text :
  format_parts (part :: rest) total text =
  (price <~ dict_getitem part "price" ;;
   total' <~ add_price total price ;;
   row <~ table_row part ;;
   format_parts rest total' (text ++ row)).
Proof. reflexivity. Qed.

Lemma format_parts_listings parts :
  forall total text,
    nonneg total ->
    format_parts (map as_dict parts) total text =
    (total' <~ estimated_total_from total (map part_price parts) ;;
     Ok (total', text ++ rows_text parts)).
Proof.
  induction parts as [|l rest IH]; intros total text Ht.
  - simpl. now rewrite append_nil_r.
  - change (map as_dict (l :: rest)) with (as_dict l :: map as_dict rest).
    rewrite format_parts_cons, price_of_listing, table_row_listing.
    cbn [obind]. rewrite add_price_contribution by exact Ht.
    cbn [map estimated_total_from].
    destruct (price_contribution (part_price l)) as [x|e] eqn:E; cbn [obind];
      [|reflexivity].
    rewrite IH.
    + cbn [rows_text]. now rewrite append_assoc.
    + apply float_add_nonneg; [exact Ht|].
      now apply price_contribution_nonneg in E.
Qed.

(** The report, for listings: the title, the table header, one row per
    listing, the line of the total and the footer; or the exception of
    the first price that is no float. *)
Lemma format_results_as_markdown_listings b parts :
  format_results_as_markdown b (map as_dict parts) =
  (total <~ estimated_total (map part_price parts) ;;
   Ok (report_title b ++ table_header ++ rows_text parts
       ++ total_line total ++ report_footer)).
Proof.
  unfold format_results_as_markdown, estimated_total.
  rewrite format_parts_listings by reflexivity.
  destruct (estimated_total_from _ _) as [total|e]; cbn [obind]; [|reflexivity].
  unfold table_header. now rewrite !append_assoc.
Qed.

Lemma estimated_total_from_parses prices :
  forall total,
    Forall (fun price => price_parses price = true) prices ->
    exists total', estimated_total_from total prices = Ok total'.
Proof.
  induction prices as [|price rest IH]; intros total H.
  - now exists total.
  - inversion H as [|? ? Hp Hrest]; subst.
    unfold price_parses in Hp. cbn [estimated_total_from].
    destruct (price_contribution price) as [x|e]; [|discriminate].
    cbn [obind]. now apply IH.
Qed.

(** ** Rendering with two decimal places *)

Lemma all_digits_string_of_uint d :
  all_digits (NilEmpty.string_of_uint d) = true.
Proof. induction d; simpl; trivial. Qed.

Lemma str_of_int_digits n :
  0 <= n -> str_of_int n <> "" /\ all_digits (str_of_int n) = true.
Proof.
  intros H. unfold str_of_int.
  destruct n as [|p|p]; [split; [discriminate|reflexivity]| |lia].
  unfold Z.to_int, NilZero.string_of_int, NilZero.string_of_uint.
  destruct (Pos.to_uint p) eqn:E;
    (split; [discriminate|]);
    try reflexivity; rewrite <- E at 1; try apply all_digits_string_of_uint;
    simpl; apply all_digits_string_of_uint.
Qed.

Lemma is_digit_digit_char k : 0 <= k < 10 -> is_digit (digit_char k) = true.
Proof.
  intros H.
  assert (E : k = 0 \/ k = 1 \/ k = 2 \/ k = 3 \/ k = 4 \/ k = 5 \/ k = 6
              \/ k = 7 \/ k = 8 \/ k = 9) by lia.
  repeat (destruct E as [->|E]; [reflexivity|]). now subst.
Qed.

Lemma div_half_even_nonneg num den :
  0 <= num -> 0 < den -> 0 <= div_half_even num den.
Proof.
  intros Hn Hd. unfold div_half_even.
  pose proof (Z.div_pos num den Hn Hd) as Hq.
  destruct (2 * (num mod den) ?= den); try destruct (Z.even (num / den)); lia.
Qed.

Lemma hundredths_nonneg m e : 0 <= hundredths m e.
Proof.
  unfold hundredths. destruct e as [|p|p].
  - lia.
  - pose proof (Z.pow_pos_nonneg 2 (Z.pos p)). lia.
  - apply div_half_even_nonneg; [lia|]. apply Z.pow_pos_nonneg; lia.
Qed.

Lemma fixed2_two_decimal_places h : 0 <= h -> two_decimal_places (fixed2 h).
Proof.
  intros H. unfold fixed2, two_digits.
  exists (str_of_int (h / 100)), (digit_char (h mod 100 / 10)),
    (digit_char ((h mod 100) mod 10)).
  pose proof (Z.mod_pos_bound h 100 ltac:(lia)) as Hm.
  destruct (str_of_int_digits (h / 100)) as [Hne Hd];
    [apply Z.div_pos; lia|].
  repeat split; trivial; apply is_digit_digit_char.
  - split; [apply Z.div_pos; lia|]. apply Z.div_lt_upper_bound; lia.
  - apply Z.mod_pos_bound. lia.
Qed.

(** A total that is zero or finite is rendered with exactly two decimal
    places. *)
Lemma format_2f_two_decimal_places x :
  nonneg x -> is_finite x = true -> two_decimal_places (format_2f x).
Proof.
  destruct x as [s|s| |s m e]; simpl; intros Hs Hf; subst;
    try discriminate; try contradiction.
  - exists "0", "0"%char, "0"%char. repeat split. discriminate.
  - apply fixed2_two_decimal_places, hundredths_nonneg.
Qed.

Lemma inf_has_no_decimal_places : ~ two_decimal_places "inf".
Proof.
  intros (whole & d1 & d2 & E & Hne & Hd & _).
  destruct whole as [|c whole]; [now elim Hne|].
  simpl in E. injection E as <- _. discriminate.
Qed.

Lemma strip_non_numeric_filter s :
  list_ascii_of_string (strip_non_numeric s) =
  filter (fun c => is_digit c || is_dot c) (list_ascii_of_string s).
Proof.
  induction s as [|c s IH]; simpl; [reflexivity|].
  destruct (is_digit c || is_dot c); simpl; now rewrite IH.
Qed.

(** C4, as amended.  The report's total is the sum the specification
    words: for each listing every character of the price that is not a
    digit or a decimal point is stripped, an empty rest contributes zero,
    any other rest is parsed as a float and added.  The total is zero, a
    positive number or plus infinity, and whenever it is finite it is
    rendered with exactly two decimal places.  For the prices "$199.99",
    "Not Found" and "1,299.00" the total is the float 1498.99, rendered
    as 1498.99. *)
Theorem estimated_total_report :
  (forall price,
      list_ascii_of_string (strip_non_numeric price) =
      filter (fun c => is_digit c || is_dot c) (list_ascii_of_string price)) /\
  (forall b parts,
      format_results_as_markdown b (map as_dict parts) =
      (total <~ estimated_total (map part_price parts) ;;
       Ok (report_title b ++ table_header ++ rows_text parts
           ++ LF ++ "**Estimated Total: $" ++ format_2f total ++ "**"
           ++ report_footer))) /\
  (forall prices total,
      estimated_total prices = Ok total ->
      nonneg total /\
      (is_finite total = true -> two_decimal_places (format_2f total))) /\
  (exists total,
      estimated_total ["$199.99"; "Not Found"; "1,299.00"] = Ok total /\
      price_contribution "Not Found" = Ok (S754_zero false) /\
      py_float "1498.99" = Ok total /\
      format_2f total = "1498.99").
Proof.
  split; [exact strip_non_numeric_filter|split; [|split]].
  - intros b parts. rewrite format_results_as_markdown_listings.
    destruct (estimated_total _) as [total|e]; cbn [obind]; [|reflexivity].
    unfold total_line. now rewrite !append_assoc.
  - intros prices total H.
    assert (Hn : nonneg total)
      by (apply (estimated_total_from_nonneg prices (S754_zero false));
          [reflexivity|exact H]).
    split; [exact Hn|]. now apply format_2f_two_decimal_places.
  - eexists. repeat split; vm_compute; reflexivity.
Qed.

Lemma estimated_total_report_witness :
  nonneg (S754_finite false 7036522574045512 (-45)) /\
  two_decimal_places (format_2f (S754_finite false 7036522574045512 (-45))).
Proof.
  destruct estimated_total_report as (_ & _ & rendering & _).
  destruct (rendering ["$199.99"] (S754_finite false 7036522574045512 (-45)))
    as [sign places].
  - vm_compute. reflexivity.
  - split; [exact sign|]. apply places. reflexivity.
Defined.

(** C4, as stated, fails on a price of 310 digits: the float of the price
    is plus infinity, so is the total, and the line of the total reads
    "inf", without decimal places. *)
Lemma astronomic_total_has_no_decimal_places :
  format_results_as_markdown high_end_gaming
    [as_dict (listing_priced astronomic_price)]
  = Ok (report_title high_end_gaming ++ table_header
        ++ row_text (listing_priced astronomic_price)
        ++ LF ++ "**Estimated Total: $" ++ "inf" ++ "**" ++ report_footer)
  /\ estimated_total [astronomic_price] = Ok (S754_infinity false)
  /\ format_2f (S754_infinity false) = "inf"
  /\ ~ two_decimal_places "inf".
Proof.
  repeat split; try (vm_compute; reflexivity).
  exact inf_has_no_decimal_places.
Qed.

(** C2 fails on a price range: the stripped price has two dots, [float]
    raises [ValueError] and the report is not produced. *)
Theorem report_aborts_on_price_range :
  strip_non_numeric "$19.99 - $29.99" = "19.9929.99" /\
  py_float "19.9929.99" = Raise (not_a_float "19.9929.99") /\
  format_results_as_markdown high_end_gaming
    [as_dict (listing_priced "$19.99 - $29.99")]
  = Raise (not_a_float "19.9929.99").
Proof. repeat split. Qed.

Lemma estimated_total_from_inv prices :
  forall total total',
    estimated_total_from total prices = Ok total' ->
    Forall (fun price => price_parses price = true) prices.
Proof.
  induction prices as [|price rest IH]; intros total total' H; constructor;
    cbn [estimated_total_from] in H; unfold price_parses;
    destruct (price_contribution price) as [x|e]; try discriminate.
  - reflexivity.
  - exact (IH _ _ H).
Qed.

(** The report is produced exactly when every price can be added up. *)
Lemma report_produced_iff b parts :
  (exists report, format_results_as_markdown b (map as_dict parts) = Ok report)
  <-> Forall (fun l => price_parses (part_price l) = true) parts.
Proof.
  rewrite format_results_as_markdown_listings. unfold estimated_total. split.
  - intros [report H].
    destruct (estimated_total_from _ _) as [total|e] eqn:E; [|discriminate].
    apply estimated_total_from_inv in E. now apply Forall_map in E.
  - intros H.
    destruct (estimated_total_from_parses (map part_price parts) (S754_zero false))
      as [total' E].
    + now apply Forall_map.
    + rewrite E. eexists. reflexivity.
Qed.

(* ===================================================================== *)
(** * Properties of a confirmed turn *)
(* ===================================================================== *)

Lemma select_build_tier_ok budget use_case :
  exists b, select_build_tier budget use_case = Ok b /\ In b catalog_tiers.
Proof.
  unfold select_build_tier.
  destruct (contains "gaming" use_case);
    [destruct (budget <? 1600)|
     destruct (contains "editing" use_case);
     [|destruct (contains "office" use_case);
       [|destruct (budget <=? 700); [|destruct (budget <=? 1600)]]]];
    eexists; (split; [reflexivity|]); simpl; tauto.
Qed.

Lemma catalog_tiers_have_parts b : In b catalog_tiers -> build_parts b <> [].
Proof.
  simpl. intros [<-|[<-|[<-|[<-|[]]]]]; discriminate.
Qed.

Lemma build_report_unfold w needs t :
  build_report w needs t =
  match select_build_tier (budget needs) (use_case needs) with
  | Ok b =>
      match collect_parts w (build_parts b) [] (t ++ [confirmation_print])%list with
      | (Ok [], t') => (Ok failure_message, t')
      | (Ok (part :: parts), t') =>
          (format_results_as_markdown b (part :: parts), t')
      | (Raise e, t') => (Raise e, t')
      end
  | Raise e => (Raise e, (t ++ [confirmation_print])%list)
  end.
Proof.
  unfold build_report, bind, print, lift.
  destruct (select_build_tier _ _) as [b|e]; [|reflexivity].
  destruct (collect_parts w _ _ _) as [[[|part parts]|e] t']; reflexivity.
Qed.

(** The listings collected are those already there and one per part. *)
Lemma collect_parts_length w items :
  forall acc t final t',
    collect_parts w items acc t = (Ok final, t') ->
    List.length final = (List.length acc + List.length items)%nat.
Proof.
  induction items as [|[type name] rest IH]; intros acc t final t' H.
  - injection H as <- _. simpl. lia.
  - rewrite collect_parts_cons in H.
    destruct (search_amazon_for_component w name t) as [[found|e] t1];
      [|discriminate].
    apply IH in H. rewrite H, length_app. simpl. lia.
Qed.

Lemma starts_with_hash_append a b : starts_with_hash a -> starts_with_hash (a ++ b).
Proof. intros [tail ->]. now exists (tail ++ b). Qed.

Lemma format_parts_extends parts :
  forall total text total' text',
    format_parts parts total text = Ok (total', text') ->
    exists more, text' = text ++ more.
Proof.
  induction parts as [|part rest IH]; intros total text total' text' H.
  - injection H as _ <-. exists "". now rewrite append_nil_r.
  - rewrite format_parts_cons in H.
    destruct (dict_getitem part "price") as [price|e]; [|discriminate].
    cbn [obind] in H.
    destruct (add_price total price) as [total1|e]; [|discriminate].
    cbn [obind] in H.
    destruct (table_row part) as [row|e]; [|discriminate].
    cbn [obind] in H.
    destruct (IH _ _ _ _ H) as [more ->].
    exists (row ++ more). apply append_assoc.
Qed.

(** Every report starts with the heading mark of its title. *)
Lemma report_starts_with_hash b parts report :
  format_results_as_markdown b parts = Ok report -> starts_with_hash report.
Proof.
  unfold format_results_as_markdown.
  destruct (format_parts parts _ _) as [[total text]|e] eqn:E; [|discriminate].
  cbn [obind]. intros [= <-].
  destruct (format_parts_extends _ _ _ _ _ E) as [more ->].
  do 3 apply starts_with_hash_append.
  rewrite append_assoc. apply starts_with_hash_append.
  eexists. reflexivity.
Qed.

(** What a confirmed turn returns is a report: the branch of the failure
    message is never taken. *)
Lemma build_report_returns_report w needs t response :
  fst (build_report w needs t) = Ok response -> starts_with_hash response.
Proof.
  rewrite build_report_unfold.
  destruct (select_build_tier_ok (budget needs) (use_case needs)) as (b & -> & Hb).
  destruct (collect_parts w _ _ _) as [[[|part parts]|e] t'] eqn:E;
    cbn [fst]; try discriminate.
  - apply collect_parts_length in E. simpl in E.
    apply catalog_tiers_have_parts in Hb.
    destruct (build_parts b); [now elim Hb|discriminate].
  - apply report_starts_with_hash.
Qed.

Lemma build_report_never_fails_softly w needs t :
  fst (build_report w needs t) <> Ok failure_message.
Proof.
  intros H. apply build_report_returns_report in H.
  destruct H as [tail H]. discriminate.
Qed.

(** A confirmed turn starts by printing that the user confirmed. *)
Lemma build_report_trace w needs t :
  exists b done todo,
    select_build_tier (budget needs) (use_case needs) = Ok b /\
    build_parts b = (done ++ todo)%list /\
    snd (build_report w needs t)
    = (t ++ confirmation_print :: all_lookup_events w done)%list /\
    (is_ok (fst (build_report w needs t)) = true -> todo = []).
Proof.
  rewrite build_report_unfold.
  destruct (select_build_tier_ok (budget needs) (use_case needs)) as (b & -> & Hb).
  destruct (collect_parts_calls w (build_parts b) [] (t ++ [confirmation_print])%list)
    as (done & todo & Hparts & Htrace & Hok).
  exists b, done, todo. split; [reflexivity|]. split; [exact Hparts|].
  rewrite <- app_assoc in Htrace. simpl app in Htrace.
  destruct (collect_parts w _ _ _) as [[[|part parts]|e] t'];
    cbn [fst snd] in *; (split; [exact Htrace|]); try exact Hok.
  intros _. now apply Hok.
Qed.


Lemma all_lookup_events_app w items1 items2 :
  all_lookup_events w (items1 ++ items2)%list
  = (all_lookup_events w items1 ++ all_lookup_events w items2)%list.
Proof. unfold all_lookup_events. apply flat_map_app. Qed.

Lemma searches_return_answers w (answers : search_answers w) items :
  forall t, searches_return w t items.
Proof.
  induction items as [|[type name] rest IH]; intros t; cbn [searches_return];
    [exact I|].
  split; [|apply IH].
  destruct (answers (t ++ [Printed ("Searching for: " ++ name)])%list
                    (lookup_params w name)) as [results ->].
  reflexivity.
Qed.

(** The lookups of the parts either all return, and each part has its
    listing, or stop at the first search that raises, with its
    exception. *)
Lemma collect_parts_outcome w items :
  forall acc t,
    (searches_return w t items /\
     exists found,
       collect_parts w items acc t
       = (Ok (acc ++ map as_dict found)%list, (t ++ all_lookup_events w items)%list)
       /\ map part_type found = map fst items
       /\ (prices_parse w ->
           Forall (fun l => price_parses (part_price l) = true) found))
    \/
    (exists before type name after e,
        items = (before ++ (type, name) :: after)%list /\
        searches_return w t before /\
        GoogleSearch w
          (t ++ all_lookup_events w before
             ++ [Printed ("Searching for: " ++ name)])%list
          (lookup_params w name) = Raise e /\
        collect_parts w items acc t
        = (Raise e,
           (t ++ all_lookup_events w (before ++ [(type, name)]))%list)).
Proof.
  induction items as [|[type name] rest IH]; intros acc t.
  - left. split; [exact I|]. exists []. simpl. rewrite !app_nil_r.
    repeat split. constructor.
  - rewrite collect_parts_cons, search_amazon_for_component_run.
    destruct (GoogleSearch w (t ++ [Printed ("Searching for: " ++ name)])%list
                           (lookup_params w name)) as [results|e] eqn:Hres.
    + rewrite typed_listing_of_results.
      match goal with |- context [as_dict ?l] => set (first := l) end.
      destruct (IH (acc ++ [as_dict first])%list (t ++ lookup_events w name)%list)
        as [(Hret & found & Hrun & Htypes & Hprices)
           |(before & type' & name' & after & e & Hitems & Hret & Hraise & Hrun)].
      * left. split; [cbn [searches_return]; rewrite Hres; now split|].
        exists (first :: found). split; [|split].
        -- rewrite Hrun. unfold all_lookup_events. cbn [flat_map map snd].
           now rewrite <- !app_assoc.
        -- cbn [map]. now rewrite Htypes.
        -- intros Hp. constructor; [|now apply Hprices].
           cbn [part_price first]. now apply (Hp _ _ _ Hres).
      * right. exists ((type, name) :: before), type', name', after, e.
        split; [now rewrite Hitems|].
        split; [cbn [searches_return]; rewrite Hres; now split|].
        split.
        -- rewrite <- Hraise. f_equal. unfold all_lookup_events.
           cbn [flat_map snd]. now rewrite <- !app_assoc.
        -- rewrite Hrun. f_equal. unfold all_lookup_events.
           cbn [flat_map snd app]. now rewrite <- !app_assoc.
    + right. exists [], type, name, rest, e.
      split; [reflexivity|]. split; [exact I|]. split.
      * cbn [all_lookup_events flat_map app]. exact Hres.
      * reflexivity.
Qed.

(** The same for the build of a record: the tier is selected, then its
    parts are looked up. *)
Lemma build_report_outcome w needs t :
  exists b,
    select_build_tier (budget needs) (use_case needs) = Ok b /\
    In b catalog_tiers /\
    ((searches_return w (t ++ [confirmation_print])%list (build_parts b) /\
      exists found,
        found <> [] /\
        map part_type found = map fst (build_parts b) /\
        (prices_parse w ->
         Forall (fun l => price_parses (part_price l) = true) found) /\
        build_report w needs t
        = (format_results_as_markdown b (map as_dict found),
           (t ++ confirmation_print :: all_lookup_events w (build_parts b))%list))
     \/
     (exists before type name after e,
         build_parts b = (before ++ (type, name) :: after)%list /\
         searches_return w (t ++ [confirmation_print])%list before /\
         GoogleSearch w
           (t ++ confirmation_print :: all_lookup_events w before
              ++ [Printed ("Searching for: " ++ name)])%list
           (lookup_params w name) = Raise e /\
         build_report w needs t
         = (Raise e,
            (t ++ confirmation_print
               :: all_lookup_events w (before ++ [(type, name)]))%list))).
Proof.
  rewrite build_report_unfold.
  destruct (select_build_tier_ok (budget needs) (use_case needs)) as (b & -> & Hb).
  exists b. split; [reflexivity|]. split; [exact Hb|].
  destruct (collect_parts_outcome w (build_parts b) [] (t ++ [confirmation_print])%list)
    as [(Hret & found & Hrun & Htypes & Hprices)
       |(before & type & name & after & e & Hitems & Hret & Hraise & Hrun)].
  - left. split; [exact Hret|]. exists found. rewrite Hrun.
    rewrite <- app_assoc. cbn [app].
    apply catalog_tiers_have_parts in Hb.
    destruct found as [|l found].
    + simpl in Htypes. destruct (build_parts b); [now elim Hb|discriminate].
    + split; [discriminate|]. split; [exact Htypes|]. split; [exact Hprices|].
      reflexivity.
  - right. exists before, type, name, after, e.
    split; [exact Hitems|]. split; [exact Hret|]. split.
    + rewrite <- Hraise. f_equal. now rewrite <- app_assoc.
    + rewrite Hrun. f_equal. now rewrite <- app_assoc.
Qed.

Lemma search_queries_lookup_events w items :
  search_queries (all_lookup_events w items) = map query_of items.
Proof.
  induction items as [|item rest IH]; [reflexivity|].
  unfold all_lookup_events in *.
  cbn [flat_map lookup_events app search_queries lookup_params q map].
  now rewrite IH.
Qed.

Lemma llm_calls_lookup_events w items : llm_calls (all_lookup_events w items) = O.
Proof.
  induction items as [|item rest IH]; [reflexivity|].
  unfold all_lookup_events in *.
  cbn [flat_map lookup_events app llm_calls]. exact IH.
Qed.

Lemma search_queries_lookups w items :
  search_queries (all_lookup_events w items)
  = map (fun item => "amazon.com " ++ snd item) items.
Proof.
  induction items as [|item rest IH]; [reflexivity|].
  unfold all_lookup_events in *.
  cbn [flat_map lookup_events app search_queries lookup_params q map].
  now rewrite IH.
Qed.

Lemma llm_calls_lookups w items : llm_calls (all_lookup_events w items) = O.
Proof.
  induction items as [|item rest IH]; [reflexivity|].
  unfold all_lookup_events in *.
  cbn [flat_map lookup_events app llm_calls]. exact IH.
Qed.

Lemma respond_to_confirmed w needs t :
  budget needs <> 0 -> use_case needs <> "unknown" -> has_confirmed needs = true ->
  respond_to_needs w needs t = build_report w needs t.
Proof.
  intros Hb Hu Hc. unfold respond_to_needs.
  apply Z.eqb_neq in Hb. apply String.eqb_neq in Hu.
  now rewrite Hb, Hu, Hc.
Qed.

(** C1.  The answer to a needs record is decided in this order: a budget
    of zero asks for the budget, whatever the rest; otherwise the use case
    "unknown" asks for the use case, and the question shows the budget;
    otherwise a record that is not confirmed asks for confirmation, and
    the question shows the use case and the budget; otherwise the build is
    made.  The three questions differ from each other and from anything
    the build returns, and only the build adds to the trace. *)
Theorem dialogue_state_resolver (w : world) (needs : NeedsAnalysis) (t : trace) :
  (budget needs = 0 -> respond_to_needs w needs t = (Ok ask_budget, t)) /\
  (budget needs <> 0 -> use_case needs = "unknown" ->
   respond_to_needs w needs t = (Ok (ask_use_case needs), t)) /\
  (budget needs <> 0 -> use_case needs <> "unknown" ->
   has_confirmed needs = false ->
   respond_to_needs w needs t = (Ok (ask_confirm needs), t)) /\
  (budget needs <> 0 -> use_case needs <> "unknown" ->
   has_confirmed needs = true ->
   respond_to_needs w needs t = build_report w needs t) /\
  Substring (str_of_int (budget needs)) (ask_use_case needs) /\
  Substring (str_of_int (budget needs)) (ask_confirm needs) /\
  Substring (use_case needs) (ask_confirm needs) /\
  (ask_budget <> ask_use_case needs /\ ask_budget <> ask_confirm needs
   /\ ask_use_case needs <> ask_confirm needs) /\
  (forall response,
      fst (build_report w needs t) = Ok response ->
      response <> ask_budget /\ response <> ask_use_case needs
      /\ response <> ask_confirm needs) /\
  (exists more, snd (build_report w needs t) = (t ++ confirmation_print :: more)%list).
Proof.
  split; [|split; [|split; [|split]]].
  - intros Hb. unfold respond_to_needs. now rewrite Hb.
  - intros Hb Hu. unfold respond_to_needs.
    apply Z.eqb_neq in Hb. now rewrite Hb, Hu.
  - intros Hb Hu Hc. unfold respond_to_needs.
    apply Z.eqb_neq in Hb. apply String.eqb_neq in Hu.
    now rewrite Hb, Hu, Hc.
  - apply respond_to_confirmed.
  - split; [|split; [|split; [|split; [|split]]]].
    + eexists _, _. reflexivity.
    + exists ("Okay, just to confirm: you're looking for a PC for **"
              ++ use_case needs ++ "** with a budget around **$"),
        "**. Is that correct?".
      unfold ask_confirm. now rewrite !append_assoc.
    + eexists _, _. reflexivity.
    + repeat split; intros H; discriminate H.
    + intros response H. apply build_report_returns_report in H.
      destruct H as [tail ->]. repeat split; intros H; discriminate H.
    + destruct (build_report_trace w needs t) as (b & done & todo & _ & _ & H & _).
      eexists. exact H.
Qed.

Lemma dialogue_state_resolver_witness :
  respond_to_needs offline_world
    {| budget := 0; use_case := "gaming"; has_confirmed := true |} []
  = (Ok ask_budget, []) /\
  respond_to_needs offline_world
    {| budget := 1500; use_case := "unknown"; has_confirmed := true |} []
  = (Ok ("Got it, a budget of around $1500. What is the primary use for this PC? For example: high-end gaming, video editing, or just office work and web Browse?"),
     []) /\
  respond_to_needs offline_world
    {| budget := 1500; use_case := "office"; has_confirmed := false |} []
  = (Ok "Okay, just to confirm: you're looking for a PC for **office** with a budget around **$1500**. Is that correct?",
     []) /\
  respond_to_needs offline_world
    {| budget := 1500; use_case := "office"; has_confirmed := true |} []
  = build_report offline_world
      {| budget := 1500; use_case := "office"; has_confirmed := true |} [].
Proof.
  split; [|split; [|split]].
  - apply (dialogue_state_resolver offline_world
             {| budget := 0; use_case := "gaming"; has_confirmed := true |} []).
    reflexivity.
  - apply (dialogue_state_resolver offline_world
             {| budget := 1500; use_case := "unknown"; has_confirmed := true |} []).
    + simpl; lia.
    + reflexivity.
  - apply (dialogue_state_resolver offline_world
             {| budget := 1500; use_case := "office"; has_confirmed := false |} []).
    + simpl; lia.
    + simpl; discriminate.
    + reflexivity.
  - apply (dialogue_state_resolver offline_world
             {| budget := 1500; use_case := "office"; has_confirmed := true |} []).
    + simpl; lia.
    + simpl; discriminate.
    + reflexivity.
Defined.









(* ===================================================================== *)
(** * Further properties: the price lookup *)
(* ===================================================================== *)

(** X1.  A lookup prints one line and makes one search, with the query
    "amazon.com " followed by the part name in the shopping engine, asking
    for one result.  An exception of the search is not caught: it is the
    outcome of the lookup.  A search that returns always gives a listing
    with the four keys name, price, link and image, and no type. *)
Theorem lookup_prints_and_searches_once (w : world) (name : string) (t : trace) :
  let asked := (t ++ [Printed ("Searching for: " ++ name)])%list in
  let params :=
    {| engine := "google"; q := "amazon.com " ++ name; tbm := "shop"; num := 1;
       api_key := SERPAPI_API_KEY w |} in
  snd (search_amazon_for_component w name t) = (asked ++ [SearchCall params])%list /\
  (forall e,
      GoogleSearch w asked params = Raise e ->
      fst (search_amazon_for_component w name t) = Raise e) /\
  (forall results,
      GoogleSearch w asked params = Ok results ->
      exists listing,
        fst (search_amazon_for_component w name t) = Ok listing /\
        dict_keys listing = ["name"; "price"; "link"; "image"] /\
        dict_getitem listing "type" = Raise (KeyError "type")).
Proof.
  intros asked params. rewrite search_amazon_for_component_run.
  fold asked. change (lookup_params w name) with params. cbn [fst snd].
  split; [|split].
  - subst asked. now rewrite <- app_assoc.
  - intros e H. now rewrite H.
  - intros results H. rewrite H. eexists. split; [reflexivity|].
    unfold listing_of_results.
    destruct (dict_get results "shopping_results" []); split; reflexivity.
Qed.

Lemma lookup_prints_and_searches_once_witness :
  fst (search_amazon_for_component search_down_world "AMD Ryzen 5 5600G" [])
  = Raise (ExternalError "connection refused") /\
  exists listing,
    fst (search_amazon_for_component shop_world "AMD Ryzen 5 5600G" []) = Ok listing /\
    dict_keys listing = ["name"; "price"; "link"; "image"] /\
    dict_getitem listing "type" = Raise (KeyError "type").
Proof.
  split.
  - apply (lookup_prints_and_searches_once search_down_world "AMD Ryzen 5 5600G" []).
    reflexivity.
  - eapply (lookup_prints_and_searches_once shop_world "AMD Ryzen 5 5600G" []).
    reflexivity.
Defined.

Lemma price_of_results_listing name results :
  dict_getitem (listing_of_results name results) "price"
  = Ok (price_of_results results).
Proof.
  unfold listing_of_results, price_of_results.
  destruct (dict_get results "shopping_results" []); reflexivity.
Qed.

(** X2.  When the search returns no shopping result, the listing is the
    placeholder: the part name, the price "Not Found", the link "#" and no
    image.  When the first result has no price, the price is "N/A".
    Either listing, once typed, goes through the report and adds nothing
    to the total. *)
Theorem lookup_without_price_adds_nothing
    (w : world) (name type : string) (t : trace) (results : search_results)
    (b : build)
    (answer : GoogleSearch w (t ++ [Printed ("Searching for: " ++ name)])%list
                (lookup_params w name) = Ok results)
    (unpriced : match dict_get results "shopping_results" [] with
                | [] => True
                | first :: _ => dict_find first "price" = None
                end) :
  exists listing price,
    fst (search_amazon_for_component w name t) = Ok listing /\
    dict_getitem listing "price" = Ok price /\
    (dict_get results "shopping_results" [] = [] ->
     listing = [("name", name); ("price", "Not Found"); ("link", "#"); ("image", "")]) /\
    (dict_get results "shopping_results" [] <> [] -> price = "N/A") /\
    format_results_as_markdown b [dict_setitem listing "type" type]
    = Ok (report_title b ++ table_header
          ++ "| **" ++ type ++ "** | [" ++ dict_get listing "name" "" ++ "]("
          ++ dict_get listing "link" "" ++ ") | " ++ price ++ " | !["
          ++ dict_get listing "name" "" ++ "](" ++ dict_get listing "image" ""
          ++ ") |" ++ LF
          ++ LF ++ "**Estimated Total: $0.00**" ++ report_footer).
Proof.
  rewrite search_amazon_for_component_run, answer. cbn [fst].
  exists (listing_of_results name results), (price_of_results results).
  split; [reflexivity|]. split; [apply price_of_results_listing|].
  rewrite typed_listing_of_results.
  change [as_dict ?l] with (map as_dict [l]).
  rewrite format_results_as_markdown_listings.
  cbn [map rows_text part_price]. rewrite append_nil_r.
  unfold row_text. cbn [part_type part_name part_price part_link part_image].
  assert (zero : estimated_total [price_of_results results] = Ok (S754_zero false)).
  { unfold price_of_results.
    destruct (dict_get results "shopping_results" []) as [|first others];
      [reflexivity|].
    unfold dict_get. now rewrite unpriced. }
  rewrite zero. cbn [obind].
  split; [intros E; unfold listing_of_results; now rewrite E|].
  split.
  - intros H. unfold price_of_results.
    destruct (dict_get results "shopping_results" []) as [|first others];
      [now elim H|].
    unfold dict_get. now rewrite unpriced.
  - rewrite !append_assoc. reflexivity.
Qed.

Lemma lookup_without_price_adds_nothing_witness :
  exists listing price,
    fst (search_amazon_for_component unpriced_world "Lian Li Lancool 216" [])
    = Ok listing /\
    dict_getitem listing "price" = Ok price /\
    price = "N/A" /\
    format_results_as_markdown mid_range_gaming [dict_setitem listing "type" "Case"]
    = Ok (report_title mid_range_gaming ++ table_header
          ++ "| **Case** | [amazon.com Lian Li Lancool 216](#) | N/A | ![amazon.com Lian Li Lancool 216]() |"
          ++ LF ++ LF ++ "**Estimated Total: $0.00**" ++ report_footer).
Proof.
  destruct (lookup_without_price_adds_nothing unpriced_world "Lian Li Lancool 216"
              "Case" [] _ mid_range_gaming eq_refl eq_refl)
    as (listing & price & run & priced & _ & na & report).
  exists listing, price. split; [exact run|]. split; [exact priced|].
  assert (E : price = "N/A") by (apply na; discriminate).
  split; [exact E|].
  rewrite report. injection run as <-. subst price. reflexivity.
Defined.

(* ===================================================================== *)
(** * Further properties: the report *)
(* ===================================================================== *)

Lemma add_price_parses total price :
  price_parses price = true -> exists total', add_price total price = Ok total'.
Proof.
  unfold price_parses, price_contribution, add_price.
  destruct (is_empty (strip_non_numeric price)); [now exists total|].
  destruct (py_float (strip_non_numeric price)) as [x|e]; [|discriminate].
  intros _. eexists. reflexivity.
Qed.

Lemma add_price_rejects total price :
  price_parses price = false ->
  add_price total price = Raise (not_a_float (strip_non_numeric price)).
Proof.
  unfold price_parses, price_contribution, add_price.
  destruct (is_empty (strip_non_numeric price)); [discriminate|].
  unfold py_float, not_a_float.
  destruct (scan_decimal (strip_non_numeric price) 0 false false 1)
    as [[m scale]|]; [discriminate|reflexivity].
Qed.

(** X3.  The report reads the price of a part first: a part without the
    key "price" raises [KeyError] for it, whatever else it holds and
    whatever follows it.  A part with a price and no "type" raises
    [KeyError] for "type" when the price can be added up, and the
    [ValueError] of [float] when it cannot.  So no listing that comes
    straight out of a lookup goes through the report: it raises one or
    the other, by its price. *)
Theorem report_raises_on_missing_key
    (b : build) (part : dict string) (rest : list (dict string)) :
  (dict_find part "price" = None ->
   format_results_as_markdown b (part :: rest) = Raise (KeyError "price")) /\
  (forall price,
      dict_find part "price" = Some price -> dict_find part "type" = None ->
      format_results_as_markdown b (part :: rest)
      = if price_parses price then Raise (KeyError "type")
        else Raise (not_a_float (strip_non_numeric price))) /\
  (forall w name t t',
      search_amazon_for_component w name t = (Ok part, t') ->
      exists price,
        dict_getitem part "price" = Ok price /\
        format_results_as_markdown b (part :: rest)
        = if price_parses price then Raise (KeyError "type")
          else Raise (not_a_float (strip_non_numeric price))).
Proof.
  assert (typeless : forall price,
             dict_find part "price" = Some price -> dict_find part "type" = None ->
             format_results_as_markdown b (part :: rest)
             = if price_parses price then Raise (KeyError "type")
               else Raise (not_a_float (strip_non_numeric price))).
  { intros price Hprice Htype.
    unfold format_results_as_markdown. rewrite format_parts_cons.
    unfold dict_getitem at 1. rewrite Hprice. cbn [obind].
    destruct (price_parses price) eqn:Hparse.
    - destruct (add_price_parses (S754_zero false) price Hparse) as [total' ->].
      cbn [obind]. unfold table_row, dict_getitem at 1. now rewrite Htype.
    - now rewrite (add_price_rejects _ _ Hparse). }
  split; [|split].
  - intros H. unfold format_results_as_markdown. rewrite format_parts_cons.
    unfold dict_getitem. now rewrite H.
  - exact typeless.
  - intros w name t t' Hrun.
    rewrite search_amazon_for_component_run in Hrun.
    destruct (GoogleSearch w _ _) as [results|e]; [|discriminate].
    injection Hrun as <- _.
    exists (price_of_results results).
    split; [apply price_of_results_listing|].
    apply typeless.
    + pose proof (price_of_results_listing name results) as H.
      unfold dict_getitem in H.
      destruct (dict_find _ "price"); [now injection H as ->|discriminate].
    + unfold listing_of_results.
      destruct (dict_get results "shopping_results" []); reflexivity.
Qed.

Lemma report_raises_on_missing_key_witness :
  format_results_as_markdown budget_office
    [ [("name", "Crucial P3 1TB NVMe SSD"); ("type", "Storage")] ]
  = Raise (KeyError "price") /\
  format_results_as_markdown budget_office
    [ [("name", "Crucial P3 1TB NVMe SSD"); ("price", "$54.99"); ("link", "#");
       ("image", "")] ]
  = Raise (KeyError "type") /\
  (forall listing t',
      search_amazon_for_component shop_world "Crucial P3 1TB NVMe SSD" []
      = (Ok listing, t') ->
      format_results_as_markdown budget_office [listing] = Raise (KeyError "type")) /\
  (forall listing t',
      search_amazon_for_component price_range_world "Crucial P3 1TB NVMe SSD" []
      = (Ok listing, t') ->
      format_results_as_markdown budget_office [listing]
      = Raise (not_a_float "19.9929.99")).
Proof.
  split; [|split; [|split]].
  - apply (report_raises_on_missing_key budget_office
             [("name", "Crucial P3 1TB NVMe SSD"); ("type", "Storage")] []).
    reflexivity.
  - apply (report_raises_on_missing_key budget_office
             [("name", "Crucial P3 1TB NVMe SSD"); ("price", "$54.99");
              ("link", "#"); ("image", "")] [])
      with (price := "$54.99"); reflexivity.
  - intros listing t' run.
    destruct (report_raises_on_missing_key budget_office listing [])
      as (_ & _ & lookup).
    destruct (lookup shop_world "Crucial P3 1TB NVMe SSD" [] t' run)
      as (price & priced & outcome).
    injection run as <- _. injection priced as <-. exact outcome.
  - intros listing t' run.
    destruct (report_raises_on_missing_key budget_office listing [])
      as (_ & _ & lookup).
    destruct (lookup price_range_world "Crucial P3 1TB NVMe SSD" [] t' run)
      as (price & priced & outcome).
    injection run as <- _. injection priced as <-. exact outcome.
Defined.

(** ** Which prices add up *)

Lemma digit_is_no_dot c : is_digit c = true -> is_dot c = false.
Proof.
  intros H. unfold is_dot. destruct (Ascii.eqb c ".") eqn:E; [|reflexivity].
  apply Ascii.eqb_eq in E. subst c. discriminate H.
Qed.

Lemma scan_decimal_accepts s :
  forall m dot any scale,
    (exists r, scan_decimal s m dot any scale = Some r) <->
    numeric_only s = true
    /\ (count_dots s + (if dot then 1 else 0) <= 1)%nat
    /\ (any = true \/ 1 <= count_digits s)%nat.
Proof.
  induction s as [|c s IH]; intros m dot any scale; cbn [scan_decimal].
  - simpl. destruct any, dot; split;
      try (intros _; repeat split; auto; lia);
      try (intros _; eexists; reflexivity);
      try (intros [r H]; discriminate);
      intros (_ & _ & [H|H]); try discriminate; lia.
  - cbn [numeric_only count_dots count_digits].
    destruct (is_digit c) eqn:Hd.
    + rewrite (digit_is_no_dot c Hd), IH. cbn [orb andb].
      split; intros (Hn & Hdots & Hany); (split; [exact Hn|]); split;
        try lia; try (right; lia); now left.
    + destruct (is_dot c) eqn:Hdot; cbn [orb andb].
      * destruct dot.
        -- split; [intros [r H]; discriminate|]. intros (_ & H & _). lia.
        -- rewrite IH. split; intros (Hn & Hdots & Hany);
             (split; [exact Hn|]); split; try lia; exact Hany.
      * split; [intros [r H]; discriminate|]. intros (H & _). discriminate.
Qed.

Lemma py_float_accepts s :
  is_ok (py_float s) = true <->
  numeric_only s = true /\ (count_dots s <= 1)%nat /\ (1 <= count_digits s)%nat.
Proof.
  pose proof (scan_decimal_accepts s 0%N false false 1%N) as H.
  unfold py_float.
  destruct (scan_decimal s 0 false false 1) as [[m scale]|]; simpl.
  - split; [intros _|reflexivity].
    destruct H as [H _]. destruct H as (Hn & Hd & Ha); [eexists; reflexivity|].
    split; [exact Hn|]. split; [lia|]. destruct Ha; [discriminate|lia].
  - split; [discriminate|]. intros (Hn & Hd & Ha).
    destruct H as [_ H]. destruct H as [r H]; [|discriminate].
    split; [exact Hn|]. split; [lia|now right].
Qed.

Lemma strip_counts price :
  numeric_only (strip_non_numeric price) = true
  /\ count_dots (strip_non_numeric price) = count_dots price
  /\ count_digits (strip_non_numeric price) = count_digits price.
Proof.
  induction price as [|c rest (IHn & IHdots & IHdigits)]; [repeat split|].
  cbn [strip_non_numeric count_dots count_digits].
  destruct (is_digit c) eqn:Hd; cbn [orb].
  - cbn [numeric_only count_dots count_digits]. rewrite Hd, IHn, IHdots, IHdigits.
    repeat split.
  - destruct (is_dot c) eqn:Hdot.
    + cbn [numeric_only count_dots count_digits].
      rewrite Hd, Hdot, IHn, IHdots, IHdigits. repeat split.
    + rewrite IHdots, IHdigits. repeat split. exact IHn.
Qed.

Lemma strip_empty price :
  is_empty (strip_non_numeric price) = true <->
  (count_digits price = 0 /\ count_dots price = 0)%nat.
Proof.
  destruct (strip_counts price) as (_ & <- & <-).
  destruct (strip_non_numeric price) as [|c rest] eqn:E.
  - split; [repeat split|reflexivity].
  - pose proof (strip_counts price) as (Hn & _ & _). rewrite E in Hn.
    cbn [numeric_only] in Hn. apply andb_true_iff in Hn. destruct Hn as [Hc _].
    cbn [is_empty count_digits count_dots].
    split; [discriminate|]. intros [H1 H2].
    destruct (is_digit c); [simpl in H1; lia|].
    destruct (is_dot c); [simpl in H2; lia|discriminate].
Qed.

Lemma price_parses_addable price : price_parses price = true <-> addable price.
Proof.
  unfold price_parses, price_contribution, addable.
  destruct (strip_counts price) as (Hn & Hdots & Hdigits).
  destruct (is_empty (strip_non_numeric price)) eqn:E.
  - apply strip_empty in E. split; [now left|reflexivity].
  - rewrite py_float_accepts, Hn, Hdots, Hdigits.
    split.
    + intros (_ & H1 & H2). right. lia.
    + intros [H|H]; [|repeat split; lia].
      apply strip_empty in H. rewrite H in E. discriminate.
Qed.

(** X4.  The report is produced exactly when each price either has no
    digit and no dot, or has at least one digit and at most one dot.  A
    price with two dots, or with a dot and no digit, makes it raise. *)
Theorem report_produced_iff_addable (b : build) (parts : list part_listing) :
  (exists report, format_results_as_markdown b (map as_dict parts) = Ok report)
  <-> Forall (fun l => addable (part_price l)) parts.
Proof.
  rewrite report_produced_iff.
  split; intros H; induction H; constructor; trivial;
    now apply price_parses_addable.
Qed.

Lemma report_produced_iff_addable_witness :
  (exists report,
      format_results_as_markdown budget_office
        (map as_dict [listing_priced "$1,299.00"; listing_priced "Not Found"])
      = Ok report) /\
  ~ (exists report,
        format_results_as_markdown budget_office
          (map as_dict [listing_priced "from $9.99."]) = Ok report).
Proof.
  split.
  - apply (report_produced_iff_addable budget_office
             [listing_priced "$1,299.00"; listing_priced "Not Found"]).
    repeat constructor; unfold addable; vm_compute; lia.
  - intros H.
    apply (report_produced_iff_addable budget_office
             [listing_priced "from $9.99."]) in H.
    inversion H as [|? ? bad _]. unfold addable in bad. vm_compute in bad. lia.
Defined.

Lemma strip_non_numeric_append a b :
  strip_non_numeric (a ++ b) = strip_non_numeric a ++ strip_non_numeric b.
Proof.
  induction a as [|c a IH]; [reflexivity|].
  cbn [append strip_non_numeric].
  destruct (is_digit c || is_dot c); cbn [append]; now rewrite IH.
Qed.

Lemma strip_non_numeric_idempotent s :
  strip_non_numeric (strip_non_numeric s) = strip_non_numeric s.
Proof.
  induction s as [|c s IH]; [reflexivity|].
  cbn [strip_non_numeric].
  destruct (is_digit c || is_dot c) eqn:E; [|exact IH].
  cbn [strip_non_numeric]. now rewrite E, IH.
Qed.

Lemma strip_junk junk :
  count_digits junk = O -> count_dots junk = O -> strip_non_numeric junk = "".
Proof.
  intros Hd Hdots.
  assert (E : is_empty (strip_non_numeric junk) = true) by now apply strip_empty.
  now destruct (strip_non_numeric junk).
Qed.

(** X5.  What a price adds depends on its digits and dots alone:
    characters that are neither (currency signs, commas, spaces, words),
    put anywhere in the price, change neither the amount added nor
    whether the price is accepted. *)
Theorem add_price_ignores_other_characters
    (total : spec_float) (before junk after : string)
    (no_digit : count_digits junk = O) (no_dot : count_dots junk = O) :
  add_price total (before ++ junk ++ after) = add_price total (before ++ after).
Proof.
  unfold add_price.
  now rewrite !strip_non_numeric_append, (strip_junk junk no_digit no_dot).
Qed.

Lemma add_price_ignores_other_characters_witness :
  add_price (S754_zero false) ("$1" ++ "," ++ "299.00 USD")
  = add_price (S754_zero false) ("$1" ++ "299.00 USD").
Proof.
  apply (add_price_ignores_other_characters (S754_zero false) "$1" "," "299.00 USD");
    reflexivity.
Defined.

Lemma estimated_total_from_skips prices :
  forall total,
    nonneg total ->
    estimated_total_from total (filter has_numeric prices)
    = estimated_total_from total prices.
Proof.
  induction prices as [|price rest IH]; intros total Ht; [reflexivity|].
  cbn [filter estimated_total_from].
  unfold has_numeric at 1, price_contribution.
  destruct (is_empty (strip_non_numeric price)) eqn:E; cbn [negb obind].
  - rewrite float_add_zero_r by exact Ht. now apply IH.
  - cbn [estimated_total_from]. unfold price_contribution. rewrite E.
    destruct (py_float (strip_non_numeric price)) as [x|e] eqn:F; cbn [obind];
      [|reflexivity].
    apply IH. apply float_add_nonneg; [exact Ht|]. now apply py_float_nonneg in F.
Qed.

(** X6.  Listings whose price has no digit and no dot ("Not Found",
    "N/A", an empty price) are shown in the table and leave the total as
    it is: the report is the one whose total is taken over the other
    listings only. *)
Theorem report_total_skips_unpriced (b : build) (parts : list part_listing) :
  format_results_as_markdown b (map as_dict parts) =
  (total <~ estimated_total
              (map part_price
                   (filter (fun l => has_numeric (part_price l)) parts)) ;;
   Ok (report_title b ++ table_header ++ rows_text parts
       ++ LF ++ "**Estimated Total: $" ++ format_2f total ++ "**"
       ++ report_footer)).
Proof.
  rewrite format_results_as_markdown_listings. unfold estimated_total.
  assert (E : map part_price (filter (fun l => has_numeric (part_price l)) parts)
              = filter has_numeric (map part_price parts)).
  { induction parts as [|l rest IH]; [reflexivity|].
    cbn [filter map]. destruct (has_numeric (part_price l)); cbn [map];
      now rewrite IH. }
  rewrite E, estimated_total_from_skips by reflexivity.
  destruct (estimated_total_from _ _) as [total|e]; cbn [obind]; [|reflexivity].
  unfold total_line. now rewrite !append_assoc.
Qed.

(* ===================================================================== *)
(** * Further properties: the prompt and the analysis *)
(* ===================================================================== *)

Lemma mem_string_keys (d : dict string) (k : string) :
  mem_string k (dict_keys d)
  = match dict_find d k with Some _ => true | None => false end.
Proof.
  induction d as [|[k' v] d IH]; [reflexivity|].
  unfold mem_string, dict_keys in *. cbn [map existsb dict_find fst].
  destruct (String.eqb k k'); [reflexivity|exact IH].
Qed.

(** X7.  [llama_template] can be filled by exactly the dictionaries that
    have the three keys system_prompt, format_prompt and chat_history,
    whatever else they hold and in whatever order.  The values are put in
    as they are, between the fixed lines of the template; a dictionary
    that lacks one of the keys raises [KeyError]. *)
Theorem llama_template_fills (d : dict string) :
  (forall system format_instructions history,
      dict_find d "system_prompt" = Some system ->
      dict_find d "format_prompt" = Some format_instructions ->
      dict_find d "chat_history" = Some history ->
      prompt_invoke llama_template d
      = Ok ("System: " ++ system ++ LF ++ format_instructions ++ LF
            ++ "Human: Here is the chat history:" ++ LF ++ history ++ LF ++ "AI:")) /\
  (dict_find d "system_prompt" = None \/ dict_find d "format_prompt" = None
   \/ dict_find d "chat_history" = None ->
   exists what, prompt_invoke llama_template d = Raise (KeyError what)).
Proof.
  split.
  - intros system format_instructions history Hs Hf Hh.
    unfold prompt_invoke, missing_variables.
    cbn [input_variables llama_template filter].
    rewrite !mem_string_keys, Hs, Hf, Hh. cbn [negb].
    cbn -[dict_getitem]. unfold dict_getitem.
    rewrite Hs, Hf, Hh. reflexivity.
  - intros H. unfold prompt_invoke, missing_variables.
    cbn [input_variables llama_template filter].
    rewrite !mem_string_keys.
    destruct (dict_find d "system_prompt"), (dict_find d "format_prompt"),
      (dict_find d "chat_history"); cbn [negb];
      try (eexists; reflexivity).
    destruct H as [H|[H|H]]; discriminate.
Qed.

Lemma llama_template_fills_witness :
  prompt_invoke llama_template
    [ ("chat_history", "User: hi"); ("user_prompt", "unused");
      ("format_prompt", "Return JSON."); ("system_prompt", "Be brief.") ]
  = Ok ("System: Be brief." ++ LF ++ "Return JSON." ++ LF
        ++ "Human: Here is the chat history:" ++ LF ++ "User: hi" ++ LF ++ "AI:") /\
  exists what,
    prompt_invoke llama_template
      [ ("system_prompt", "Be brief."); ("format_prompt", "Return JSON.");
        ("user_prompt", "User: hi") ]
    = Raise (KeyError what).
Proof.
  split.
  - apply (llama_template_fills
             [ ("chat_history", "User: hi"); ("user_prompt", "unused");
               ("format_prompt", "Return JSON."); ("system_prompt", "Be brief.") ]);
      reflexivity.
  - apply (llama_template_fills
             [ ("system_prompt", "Be brief."); ("format_prompt", "Return JSON.");
               ("user_prompt", "User: hi") ]).
    right. right. reflexivity.
Defined.

Lemma analyze_user_needs_run w p s t :
  analyze_user_needs w p s t =
  match prompt_invoke p (extraction_input w s) with
  | Raise e =>
      (Ok sentinel_needs,
       (t ++ [Printed ("Error analyzing user needs: " ++ exn_text e)])%list)
  | Ok text =>
      match LLM w t text with
      | Raise e =>
          (Ok sentinel_needs,
           (t ++ [LLMCall text;
                  Printed ("Error analyzing user needs: " ++ exn_text e)])%list)
      | Ok reply =>
          match json_parser w reply with
          | Ok needs => (Ok needs, (t ++ [LLMCall text])%list)
          | Raise e =>
              (Ok sentinel_needs,
               (t ++ [LLMCall text;
                      Printed ("Error analyzing user needs: " ++ exn_text e)])%list)
          end
      end
  end.
Proof.
  rewrite analyze_user_needs_unfold.
  unfold try_except, chain_invoke, bind, lift, llm_call, print, ret.
  destruct (prompt_invoke p (extraction_input w s)) as [text|e]; [|reflexivity].
  destruct (LLM w t text) as [reply|e].
  - destruct (json_parser w reply) as [needs|e]; [reflexivity|].
    now rewrite <- app_assoc.
  - now rewrite <- app_assoc.
Qed.

(** X8.  [analyze_user_needs] never raises.  The model is called once,
    with the filled prompt, when the prompt can be filled, and not at all
    otherwise; the record returned is what the parser reads in the reply
    of the model, and the all-sentinel record when the prompt, the model
    or the parser raises, after one printed line.  The search is never
    called. *)
Theorem analyze_user_needs_outcomes
    (w : world) (p : PromptTemplate) (s : string) (t : trace) :
  let input := [ ("system_prompt", system_prompt);
                 ("format_prompt", get_format_instructions w);
                 ("user_prompt", s) ] in
  let run := analyze_user_needs w p s t in
  (exists needs, fst run = Ok needs) /\
  search_queries (snd run) = search_queries t /\
  (forall e, prompt_invoke p input = Raise e ->
             fst run = Ok sentinel_needs /\ llm_calls (snd run) = llm_calls t) /\
  (forall text,
      prompt_invoke p input = Ok text ->
      exists more,
        snd run = (t ++ LLMCall text :: more)%list /\ llm_calls more = O /\
        fst run = match LLM w t text with
                  | Ok reply =>
                      match json_parser w reply with
                      | Ok needs => Ok needs
                      | Raise _ => Ok sentinel_needs
                      end
                  | Raise _ => Ok sentinel_needs
                  end).
Proof.
  intros input run. subst run. rewrite analyze_user_needs_run.
  change (extraction_input w s) with input.
  destruct (prompt_invoke p input) as [text|e].
  - destruct (LLM w t text) as [reply|e] eqn:EL;
      [destruct (json_parser w reply) as [needs|e] eqn:EP|]; cbn [fst snd];
      (split; [eexists; reflexivity|]);
      (split; [rewrite search_queries_app; simpl; apply app_nil_r|]);
      (split; [intros e' H; discriminate|]);
      intros text' [= <-]; rewrite EL, ?EP; eexists; repeat split.
  - cbn [fst snd]. split; [eexists; reflexivity|].
    split; [rewrite search_queries_app; simpl; apply app_nil_r|].
    split; [|intros text H; discriminate].
    intros e' _. split; [reflexivity|].
    rewrite llm_calls_app. simpl. lia.
Qed.

Lemma analyze_user_needs_outcomes_witness :
  (fst (analyze_user_needs shop_world llama_template "User: hi" [])
   = Ok sentinel_needs /\
   llm_calls (snd (analyze_user_needs shop_world llama_template "User: hi" [])) = O) /\
  exists text more,
    snd (analyze_user_needs shop_world matching_template "User: hi" [])
    = LLMCall text :: more /\ llm_calls more = O /\
    fst (analyze_user_needs shop_world matching_template "User: hi" [])
    = Ok sample_needs.
Proof.
  split.
  - destruct (analyze_user_needs_outcomes shop_world llama_template "User: hi" [])
      as (_ & _ & unfilled & _).
    eapply unfilled. reflexivity.
  - destruct (analyze_user_needs_outcomes shop_world matching_template "User: hi" [])
      as (_ & _ & _ & filled).
    eexists. eapply filled. reflexivity.
Defined.

(* ===================================================================== *)
(** * Further properties: the turn *)
(* ===================================================================== *)

Lemma confirmed_or_not needs : confirmed needs \/ ~ confirmed needs.
Proof.
  unfold confirmed.
  destruct (Z.eq_dec (budget needs) 0) as [Hb|Hb]; [right; tauto|].
  destruct (string_dec (use_case needs) "unknown") as [Hu|Hu]; [right; tauto|].
  destruct (has_confirmed needs); [left; tauto|right].
  intros (_ & _ & H). discriminate.
Qed.

(** A record that is not confirmed is answered by one of the three
    questions, and the trace is left as it was. *)
Lemma respond_to_unconfirmed w needs t :
  ~ confirmed needs ->
  exists question,
    respond_to_needs w needs t = (Ok question, t) /\
    (question = ask_budget \/ question = ask_use_case needs
     \/ question = ask_confirm needs).
Proof.
  intros H. unfold respond_to_needs.
  destruct (budget needs =? 0) eqn:Hb; [eexists; split; [reflexivity|tauto]|].
  destruct (String.eqb (use_case needs) "unknown") eqn:Hu;
    [eexists; split; [reflexivity|tauto]|].
  destruct (has_confirmed needs) eqn:Hc; cbn [negb];
    [|eexists; split; [reflexivity|tauto]].
  elim H. apply Z.eqb_neq in Hb. apply String.eqb_neq in Hu. now repeat split.
Qed.

Lemma respond_to_needs_llm_calls w needs t :
  llm_calls (snd (respond_to_needs w needs t)) = llm_calls t.
Proof.
  destruct (confirmed_or_not needs) as [(Hb & Hu & Hc)|H].
  - rewrite respond_to_confirmed by assumption.
    destruct (build_report_trace w needs t) as (b & done & todo & _ & _ & -> & _).
    change (confirmation_print :: ?l) with ([confirmation_print] ++ l)%list.
    rewrite !llm_calls_app, llm_calls_lookups. simpl. lia.
  - destruct (respond_to_unconfirmed w needs t H) as (question & -> & _).
    reflexivity.
Qed.

(** X9.  Whatever the collaborators do, the answer of a turn is never the
    message of line 221 about an error while searching for parts. *)
Theorem failure_message_never_returned
    (w : world) (p : PromptTemplate) (user_message : string)
    (chat_history : list (string * string)) (t : trace) :
  fst (get_assistant_response w p user_message chat_history t)
  <> Ok "I'm sorry, I encountered an error while searching for parts. Please try again.".
Proof.
  destruct chat_history as [|turn history]; [discriminate|].
  destruct (analyze_user_needs_never_raises w p
              (transcript user_message (turn :: history)) t) as (needs & t1 & H).
  rewrite (get_assistant_response_resolves _ _ _ _ _ _ _ _ H).
  destruct (confirmed_or_not needs) as [(Hb & Hu & Hc)|Hn].
  - rewrite respond_to_confirmed by assumption.
    apply build_report_never_fails_softly.
  - destruct (respond_to_unconfirmed w needs t1 Hn) as (question & -> & Hq).
    cbn [fst]. intros [= E]. subst question.
    destruct Hq as [Hq|[Hq|Hq]]; discriminate Hq.
Qed.

(** X10.  A turn calls the model at most once.  It calls the search only
    when the history is not empty and the analysis returned a record with
    a budget other than zero, a use case other than "unknown" and the
    confirmation: no other turn makes a lookup. *)
Theorem turn_call_discipline
    (w : world) (p : PromptTemplate) (user_message : string)
    (chat_history : list (string * string)) (t : trace) :
  let run := get_assistant_response w p user_message chat_history t in
  (llm_calls (snd run) <= llm_calls t + 1)%nat /\
  (search_queries (snd run) <> search_queries t ->
   chat_history <> [] /\
   exists needs t1,
     analyze_user_needs w p (transcript user_message chat_history) t = (Ok needs, t1)
     /\ budget needs <> 0 /\ use_case needs <> "unknown"
     /\ has_confirmed needs = true).
Proof.
  intros run. subst run.
  destruct chat_history as [|turn history].
  - cbn [get_assistant_response ret fst snd]. split; [lia|].
    intros H. now elim H.
  - destruct (analyze_user_needs_never_raises w p
                (transcript user_message (turn :: history)) t) as (needs & t1 & H).
    rewrite (get_assistant_response_resolves _ _ _ _ _ _ _ _ H).
    pose proof (analyze_user_needs_run w p
                  (transcript user_message (turn :: history)) t) as R.
    rewrite H in R.
    assert (Ht1 : (llm_calls t1 <= llm_calls t + 1)%nat
                  /\ search_queries t1 = search_queries t).
    { destruct (prompt_invoke p _) as [text|e];
        [destruct (LLM w t text) as [reply|e];
         [destruct (json_parser w reply) as [n|e]|]|];
        injection R as _ ->;
        rewrite llm_calls_app, search_queries_app; simpl;
        rewrite app_nil_r; split; trivial; lia. }
    destruct Ht1 as [Hllm Hsearch].
    split; [rewrite respond_to_needs_llm_calls; exact Hllm|].
    intros Hrun. split; [discriminate|]. exists needs, t1. split; [exact H|].
    destruct (confirmed_or_not needs) as [C|Hn]; [exact C|].
    destruct (respond_to_unconfirmed w needs t1 Hn) as (question & E & _).
    rewrite E in Hrun. cbn [snd] in Hrun. now elim Hrun.
Qed.

Lemma turn_call_discipline_witness :
  [("a gaming pc for 2000", ask_confirm sample_needs)] <> [] /\
  exists needs t1,
    analyze_user_needs shop_world matching_template
      (transcript "yes" [("a gaming pc for 2000", ask_confirm sample_needs)]) []
    = (Ok needs, t1)
    /\ budget needs <> 0 /\ use_case needs <> "unknown"
    /\ has_confirmed needs = true.
Proof.
  apply (turn_call_discipline shop_world matching_template "yes"
           [("a gaming pc for 2000", ask_confirm sample_needs)] []).
  vm_compute. discriminate.
Defined.

Lemma nodup_check (l : list string) : nodup string_dec l = l -> NoDup l.
Proof. intros <-. apply NoDup_nodup. Qed.

Lemma catalog_queries_differ b :
  In b catalog_tiers ->
  NoDup (map (fun item => "amazon.com " ++ snd item) (build_parts b))
  /\ (List.length (build_parts b) = 6 \/ List.length (build_parts b) = 8)%nat.
Proof.
  simpl. intros [<-|[<-|[<-|[<-|[]]]]];
    (split; [apply nodup_check; vm_compute; reflexivity|simpl; lia]).
Qed.

(** X11.  In a confirmed turn, whatever the record and the collaborators,
    the model is not called and the searches are those of the parts of the
    selected tier in its order: no two alike, never more than 8.  Either
    every search returns: then every part is searched and the outcome is
    that of the report assembler on one listing for each category.  Or the
    searches stop at the first one that raises: the parts before it were
    searched and returned, the parts after it are not searched, and its
    exception is the outcome of the turn. *)
Theorem confirmed_turn_searches
    (w : world) (needs : NeedsAnalysis) (t : trace)
    (nonzero : budget needs <> 0) (known : use_case needs <> "unknown")
    (agreed : has_confirmed needs = true) :
  let run := respond_to_needs w needs t in
  exists b,
    select_build_tier (budget needs) (use_case needs) = Ok b /\
    NoDup (map query_of (build_parts b)) /\
    (List.length (build_parts b) <= 8)%nat /\
    llm_calls (snd run) = llm_calls t /\
    ((searches_return w (t ++ [confirmation_print])%list (build_parts b) /\
      search_queries (snd run)
      = (search_queries t ++ map query_of (build_parts b))%list /\
      exists found,
        map part_type found = map fst (build_parts b) /\
        fst run = format_results_as_markdown b (map as_dict found))
     \/
     (exists before type name after e,
         build_parts b = (before ++ (type, name) :: after)%list /\
         searches_return w (t ++ [confirmation_print])%list before /\
         GoogleSearch w
           (t ++ confirmation_print :: all_lookup_events w before
              ++ [Printed ("Searching for: " ++ name)])%list
           (lookup_params w name) = Raise e /\
         search_queries (snd run)
         = (search_queries t ++ map query_of (before ++ [(type, name)]))%list /\
         fst run = Raise e)).
Proof.
  intros run. subst run.
  rewrite respond_to_confirmed by assumption.
  destruct (build_report_outcome w needs t) as (b & Hsel & Hin & Hcases).
  destruct (catalog_queries_differ b Hin) as [Hnodup Hlen].
  exists b. split; [exact Hsel|]. split; [exact Hnodup|]. split; [lia|].
  assert (Hqueries : forall items,
             search_queries (t ++ confirmation_print :: all_lookup_events w items)%list
             = (search_queries t ++ map query_of items)%list).
  { intros items. rewrite search_queries_app. cbn [search_queries confirmation_print].
    now rewrite search_queries_lookup_events. }
  assert (Hllm : forall items,
             llm_calls (t ++ confirmation_print :: all_lookup_events w items)%list
             = llm_calls t).
  { intros items. rewrite llm_calls_app. cbn [llm_calls confirmation_print].
    rewrite llm_calls_lookup_events. lia. }
  destruct Hcases
    as [(Hret & found & _ & Htypes & _ & Hrun)
       |(before & type & name & after & e & Hparts & Hret & Hraise & Hrun)];
    rewrite Hrun; cbn [fst snd]; rewrite Hqueries, Hllm; (split; [reflexivity|]).
  - left. split; [exact Hret|]. split; [reflexivity|]. now exists found.
  - right. exists before, type, name, after, e. now repeat split.
Qed.

Lemma confirmed_turn_searches_witness :
  exists b,
    select_build_tier 2000 "gaming" = Ok b /\
    (List.length (build_parts b) <= 8)%nat /\
    ((search_queries (snd (respond_to_needs search_down_world sample_needs []))
      = map query_of (build_parts b) /\
      exists found,
        fst (respond_to_needs search_down_world sample_needs [])
        = format_results_as_markdown b (map as_dict found))
     \/
     (exists before type name after e,
         build_parts b = (before ++ (type, name) :: after)%list /\
         search_queries (snd (respond_to_needs search_down_world sample_needs []))
         = map query_of (before ++ [(type, name)]) /\
         fst (respond_to_needs search_down_world sample_needs []) = Raise e)).
Proof.
  destruct (confirmed_turn_searches search_down_world sample_needs [])
    as (b & sel & _ & bound & _ & cases).
  - simpl; lia.
  - simpl; discriminate.
  - reflexivity.
  - exists b. split; [exact sel|]. split; [exact bound|].
    destruct cases
      as [(_ & queries & found & _ & outcome)
         |(before & type & name & after & e & parts & _ & _ & queries & outcome)].
    + left. split; [exact queries|]. now exists found.
    + right. exists before, type, name, after, e. repeat split; assumption.
Defined.



Lemma collect_parts_nothing w (nothing : finds_nothing w) items :
  forall acc t,
    collect_parts w items acc t
    = (Ok (acc ++ map as_dict (map not_found_listing items))%list,
       (t ++ all_lookup_events w items)%list).
Proof.
  induction items as [|[type name] rest IH]; intros acc t.
  - simpl. now rewrite !app_nil_r.
  - rewrite collect_parts_cons, search_amazon_for_component_run.
    destruct (nothing (t ++ [Printed ("Searching for: " ++ name)])%list
                      (lookup_params w name)) as (results & -> & Hempty).
    unfold listing_of_results. rewrite Hempty.
    rewrite IH. unfold all_lookup_events. cbn [flat_map map snd].
    now rewrite <- !app_assoc.
Qed.

Lemma estimated_total_not_found items :
  estimated_total (map part_price (map not_found_listing items))
  = Ok (S754_zero false).
Proof.
  unfold estimated_total. induction items as [|item rest IH]; [reflexivity|].
  exact IH.
Qed.

(** X13.  In a confirmed turn, when no search returns a shopping result,
    the answer is still a report: every category of the tier has its row,
    with the part name of the catalog, the price "Not Found" and the link
    "#", and the total is 0.00. *)
Theorem nothing_found_report
    (w : world) (needs : NeedsAnalysis) (t : trace)
    (nonzero : budget needs <> 0) (known : use_case needs <> "unknown")
    (agreed : has_confirmed needs = true)
    (nothing : forall t0 params,
        exists results,
          GoogleSearch w t0 params = Ok results
          /\ dict_get results "shopping_results" [] = []) :
  exists b,
    select_build_tier (budget needs) (use_case needs) = Ok b /\
    fst (respond_to_needs w needs t)
    = Ok (report_title b ++ table_header
          ++ rows_text
               (map (fun item =>
                       {| part_type := fst item; part_name := snd item;
                          part_price := "Not Found"; part_link := "#";
                          part_image := "" |})
                    (build_parts b))
          ++ LF ++ "**Estimated Total: $0.00**" ++ report_footer).
Proof.
  rewrite respond_to_confirmed by assumption. rewrite build_report_unfold.
  destruct (select_build_tier_ok (budget needs) (use_case needs)) as (b & -> & Hin).
  exists b. split; [reflexivity|].
  rewrite (collect_parts_nothing w nothing). cbn [app].
  apply catalog_tiers_have_parts in Hin.
  destruct (build_parts b) as [|item rest] eqn:E; [now elim Hin|].
  cbn [map]. cbn [fst].
  change (as_dict (not_found_listing item) :: map as_dict (map not_found_listing rest))
    with (map as_dict (map not_found_listing (item :: rest))).
  rewrite format_results_as_markdown_listings, estimated_total_not_found.
  cbn [obind]. reflexivity.
Qed.

Lemma nothing_found_report_witness :
  exists b,
    select_build_tier 3000 "video editing" = Ok b /\
    fst (respond_to_needs offline_world
           {| budget := 3000; use_case := "video editing"; has_confirmed := true |} [])
    = Ok (report_title b ++ table_header
          ++ rows_text
               (map (fun item =>
                       {| part_type := fst item; part_name := snd item;
                          part_price := "Not Found"; part_link := "#";
                          part_image := "" |})
                    (build_parts b))
          ++ LF ++ "**Estimated Total: $0.00**" ++ report_footer).
Proof.
  apply (nothing_found_report offline_world
           {| budget := 3000; use_case := "video editing"; has_confirmed := true |} []).
  - simpl; lia.
  - simpl; discriminate.
  - reflexivity.
  - intros t0 params. exists []. split; reflexivity.
Defined.

(** X14.  A use case that contains "gaming" and a use case that contains
    none of the three words are served by the same tier exactly for the
    budgets above 700 other than 1600: up to 700 the second gets the
    office tier, and at 1600 the first gets the high-end tier while the
    second stays with the mid-range tier. *)
Theorem gaming_and_fallback_agree
    (budget : Z) (gaming_use other_use : string)
    (gaming : Substring "gaming" gaming_use)
    (no_gaming : ~ Substring "gaming" other_use)
    (no_editing : ~ Substring "editing" other_use)
    (no_office : ~ Substring "office" other_use) :
  select_build_tier budget gaming_use = select_build_tier budget other_use
  <-> 700 < budget /\ budget <> 1600.
Proof.
  apply contains_correct in gaming.
  apply contains_false in no_gaming, no_editing, no_office.
  unfold select_build_tier. rewrite gaming, no_gaming, no_editing, no_office.
  destruct (budget <? 1600) eqn:H1; destruct (budget <=? 700) eqn:H2;
    destruct (budget <=? 1600) eqn:H3;
    try apply Z.ltb_lt in H1; try apply Z.ltb_ge in H1;
    try apply Z.leb_le in H2; try apply Z.leb_gt in H2;
    try apply Z.leb_le in H3; try apply Z.leb_gt in H3;
    (split; [intros E; try discriminate E; lia|intros [A B]; try lia; reflexivity]).
Qed.

Lemma gaming_and_fallback_agree_witness :
  select_build_tier 1600 "gaming" <> select_build_tier 1600 "unknown" /\
  select_build_tier 1599 "gaming" = select_build_tier 1599 "unknown".
Proof.
  assert (no : forall needle, contains needle "unknown" = false ->
                              ~ Substring needle "unknown")
    by (intros; now apply contains_false).
  split.
  - intros E.
    apply (gaming_and_fallback_agree 1600 "gaming" "unknown") in E;
      [lia|now exists "", ""|now apply no|now apply no|now apply no].
  - apply (gaming_and_fallback_agree 1599 "gaming" "unknown");
      [now exists "", ""|now apply no|now apply no|now apply no|lia].
Defined.

(** ** Repeating a turn *)

Lemma framed_ret {A} (a : A) : framed (ret a).
Proof. intros t t'. exists (Ok a), []. now rewrite !app_nil_r. Qed.

Lemma framed_lift {A} (o : outcome A) : framed (lift o).
Proof. intros t t'. exists o, []. now rewrite !app_nil_r. Qed.

Lemma framed_print line : framed (print line).
Proof. intros t t'. now exists (Ok tt), [Printed line]. Qed.

Lemma framed_bind {A B} (m : M A) (k : A -> M B) :
  framed m -> (forall a, framed (k a)) -> framed (bind m k).
Proof.
  intros Hm Hk t t'. unfold bind.
  destruct (Hm t t') as ([a|e] & events & -> & ->).
  - destruct (Hk a (t ++ events)%list (t' ++ events)%list)
      as (r & more & -> & ->).
    exists r, (events ++ more)%list. now rewrite !app_assoc.
  - now exists (Raise e), events.
Qed.

Lemma framed_try_except {A} (m : M A) (h : exn -> M A) :
  framed m -> (forall e, framed (h e)) -> framed (try_except m h).
Proof.
  intros Hm Hh t t'. unfold try_except.
  destruct (Hm t t') as ([a|e] & events & -> & ->).
  - now exists (Ok a), events.
  - destruct (Hh e (t ++ events)%list (t' ++ events)%list)
      as (r & more & -> & ->).
    exists r, (events ++ more)%list. now rewrite !app_assoc.
Qed.

Section Repeatable.

Variable w : world.
Hypothesis same_answers : deterministic w.

Lemma framed_llm_call text : framed (llm_call w text).
Proof.
  intros t t'. unfold llm_call. destruct same_answers as [same _].
  exists (LLM w t text), [LLMCall text]. now rewrite (same t' t).
Qed.

Lemma framed_search_call params : framed (search_call w params).
Proof.
  intros t t'. unfold search_call. destruct same_answers as [_ same].
  exists (GoogleSearch w t params), [SearchCall params]. now rewrite (same t' t).
Qed.

Lemma framed_search_amazon_for_component name :
  framed (search_amazon_for_component w name).
Proof.
  unfold search_amazon_for_component.
  apply framed_bind; [apply framed_print|]. intros _.
  apply framed_bind; [apply framed_search_call|]. intros results.
  destruct (dict_get results "shopping_results" []); apply framed_ret.
Qed.

Lemma framed_collect_parts items : forall acc, framed (collect_parts w items acc).
Proof.
  induction items as [|[type name] rest IH]; intros acc; cbn [collect_parts].
  - apply framed_ret.
  - apply framed_bind; [apply framed_search_amazon_for_component|].
    intros found. apply IH.
Qed.

Lemma framed_respond_to_needs needs : framed (respond_to_needs w needs).
Proof.
  unfold respond_to_needs.
  destruct (budget needs =? 0); [apply framed_ret|].
  destruct (String.eqb (use_case needs) "unknown"); [apply framed_ret|].
  destruct (negb (has_confirmed needs)); [apply framed_ret|].
  unfold build_report.
  apply framed_bind; [apply framed_print|]. intros _.
  apply framed_bind; [apply framed_lift|]. intros b.
  apply framed_bind; [apply framed_collect_parts|]. intros [|part parts].
  - apply framed_ret.
  - apply framed_lift.
Qed.

Lemma framed_analyze_user_needs p s : framed (analyze_user_needs w p s).
Proof.
  unfold analyze_user_needs.
  apply framed_try_except.
  - apply framed_bind; [|intros; apply framed_ret].
    unfold chain_invoke.
    apply framed_bind; [apply framed_lift|]. intros text.
    apply framed_bind; [apply framed_llm_call|]. intros reply.
    apply framed_lift.
  - intros e. apply framed_bind; [apply framed_print|]. intros _.
    apply framed_ret.
Qed.

Lemma framed_get_assistant_response p user_message chat_history :
  framed (get_assistant_response w p user_message chat_history).
Proof.
  destruct chat_history as [|turn history]; [apply framed_ret|].
  rewrite get_assistant_response_cons.
  apply framed_bind; [apply framed_analyze_user_needs|].
  apply framed_respond_to_needs.
Qed.

End Repeatable.

(** X15.  When the model and the search answer by what they are asked
    alone, a turn gives the same outcome and makes the same prints and
    calls on whatever went before: repeating the turn with the same
    message and history repeats the answer. *)
Theorem turn_is_repeatable
    (w : world) (p : PromptTemplate) (user_message : string)
    (chat_history : list (string * string))
    (same_model : forall t t' text, LLM w t text = LLM w t' text)
    (same_search : forall t t' params,
        GoogleSearch w t params = GoogleSearch w t' params) :
  forall t,
    let first := get_assistant_response w p user_message chat_history t in
    let second := get_assistant_response w p user_message chat_history (snd first) in
    fst second = fst first /\
    exists events,
      snd first = (t ++ events)%list /\
      snd second = (t ++ events ++ events)%list.
Proof.
  intros t first second. subst first second.
  destruct (framed_get_assistant_response w (conj same_model same_search)
              p user_message chat_history t
              (snd (get_assistant_response w p user_message chat_history t)))
    as (r & events & E1 & E2).
  rewrite E2, E1. cbn [fst snd]. split; [reflexivity|].
  exists events. split; [reflexivity|]. now rewrite app_assoc.
Qed.

Lemma turn_is_repeatable_witness :
  let first :=
    get_assistant_response shop_world matching_template "yes"
      [("a gaming pc for 2000", ask_confirm sample_needs)] [] in
  let second :=
    get_assistant_response shop_world matching_template "yes"
      [("a gaming pc for 2000", ask_confirm sample_needs)] (snd first) in
  fst second = fst first /\
  exists events,
    snd first = events /\ snd second = (events ++ events)%list.
Proof.
  apply (turn_is_repeatable shop_world matching_template "yes"
           [("a gaming pc for 2000", ask_confirm sample_needs)]);
    reflexivity.
Defined.
